(** * Ticketmaster MCP server (events.py): formatter, extractor, gateway, tools

    A shallow embedding of [src/events.py].  JSON payloads are Python values
    as [json.loads] builds them; every Python operation the program applies
    to them ([in], subscripting, [.get], [len], truthiness, [str], [+=],
    [.lower], [.join], iteration) is written out with the exception it
    raises on the wrong kind of value.  The query-parameter dictionaries are
    objects of a store, because the gateway updates its argument in place. *)

From Stdlib Require Import ZArith String Ascii DecimalString.
From stdpp Require Import gmap strings list.

Open Scope Z_scope.
Set Warnings "-register-all".
Set Default Proof Using "Type".

(** ** Exceptions and the error monad *)

(** The built-in exceptions the program can raise on a payload.
    [UnboundReference] is not a Python exception: it is what the model
    returns when a location that is not in the store is dereferenced, which
    no Python program can do. *)
Inductive exn : Type :=
| TypeError
| KeyError
| IndexError
| AttributeError
| UnboundReference.

Inductive result (A : Type) : Type :=
| Ok (a : A)
| Raise (e : exn).
Arguments Ok {A} a.
Arguments Raise {A} e.

#[global] Instance result_ret : MRet result := fun A a => Ok a.
#[global] Instance result_bind : MBind result := fun A B f r =>
  match r with
  | Ok a => f a
  | Raise e => Raise e
  end.

(** [a and b] in a condition: [b] is evaluated only when [a] is true. *)
Definition py_and (a b : result bool) : result bool :=
  x ← a; if (x : bool) then b else mret false.

(** ** Strings *)

Definition nl : string := String "010"%char EmptyString.

(** [needle in s] on two [str] values. *)
Fixpoint contains (needle s : string) : bool :=
  String.prefix needle s ||
  match s with
  | EmptyString => false
  | String _ rest => contains needle rest
  end.

(** Strings are held in UTF-8; a character of a Python [str] is a lead byte
    with the continuation bytes (0x80..0xBF) that follow it. *)
Definition is_continuation (c : ascii) : bool :=
  let n := nat_of_ascii c in (Nat.leb 128 n && Nat.ltb n 192)%bool.

Definition starts_with_continuation (s : string) : bool :=
  match s with
  | EmptyString => false
  | String c _ => is_continuation c
  end.

Fixpoint code_points (s : string) : list string :=
  match s with
  | EmptyString => []
  | String c rest =>
      match code_points rest with
      | cp :: cps =>
          if starts_with_continuation rest
          then String c cp :: cps
          else String c EmptyString :: cp :: cps
      | [] => [String c EmptyString]
      end
  end.

(** [str.lower] on the ASCII letters.  No character outside ASCII lowers to
    one of the letters of "undefined", so the comparison the program makes
    with that literal is decided by the ASCII letters alone. *)
Definition lower_ascii (c : ascii) : ascii :=
  let n := nat_of_ascii c in
  if (Nat.leb 65 n && Nat.leb n 90)%bool then ascii_of_nat (n + 32) else c.

Fixpoint lower (s : string) : string :=
  match s with
  | EmptyString => EmptyString
  | String c rest => String (lower_ascii c) (lower rest)
  end.

Definition str_of_int (n : Z) : string := NilZero.string_of_int (Z.to_int n).

(** ** JSON payloads as Python values *)

(** What [response.json()] returns.  An [int] is unbounded.  A [float] is
    observed by the program only through [bool()] and [str()], and is kept
    as those two observations.  A [dict] keeps its insertion order; lookups
    take the first binding of a key (a decoded object has one per key). *)
Inductive value : Type :=
| VNone
| VBool (b : bool)
| VInt (n : Z)
| VFloat (nonzero : bool) (text : string)
| VStr (s : string)
| VList (l : list value)
| VDict (d : list (string * value)).

Fixpoint dict_lookup (d : list (string * value)) (k : string) : option value :=
  match d with
  | [] => None
  | (k', v) :: d' => if String.eqb k' k then Some v else dict_lookup d' k
  end.

Definition dict_mem (d : list (string * value)) (k : string) : bool :=
  match dict_lookup d k with
  | Some _ => true
  | None => false
  end.

Definition is_str (k : string) (v : value) : bool :=
  match v with
  | VStr s => String.eqb s k
  | _ => false
  end.

(** [bool(v)] *)
Definition py_bool (v : value) : bool :=
  match v with
  | VNone => false
  | VBool b => b
  | VInt n => negb (n =? 0)
  | VFloat nz _ => nz
  | VStr s => negb (String.eqb s "")
  | VList l => match l with [] => false | _ => true end
  | VDict d => match d with [] => false | _ => true end
  end.

(** [k in v] for a string literal [k] *)
Definition py_in (k : string) (v : value) : result bool :=
  match v with
  | VDict d => Ok (dict_mem d k)
  | VList l => Ok (existsb (is_str k) l)
  | VStr s => Ok (contains k s)
  | _ => Raise TypeError
  end.

(** [v[k]] for a string literal [k] *)
Definition py_getitem (v : value) (k : string) : result value :=
  match v with
  | VDict d =>
      match dict_lookup d k with
      | Some x => Ok x
      | None => Raise KeyError
      end
  | _ => Raise TypeError
  end.

(** [v[0]] *)
Definition py_getitem0 (v : value) : result value :=
  match v with
  | VList (x :: _) => Ok x
  | VList [] => Raise IndexError
  | VStr s =>
      match code_points s with
      | c :: _ => Ok (VStr c)
      | [] => Raise IndexError
      end
  | VDict _ => Raise KeyError
  | _ => Raise TypeError
  end.

(** [v.get(k, default)] *)
Definition py_get (v : value) (k : string) (default : value) : result value :=
  match v with
  | VDict d =>
      match dict_lookup d k with
      | Some x => Ok x
      | None => Ok default
      end
  | _ => Raise AttributeError
  end.

(** [len(v)] *)
Definition py_len (v : value) : result Z :=
  match v with
  | VList l => Ok (Z.of_nat (length l))
  | VDict d => Ok (Z.of_nat (length d))
  | VStr s => Ok (Z.of_nat (length (code_points s)))
  | _ => Raise TypeError
  end.

(** [v and len(v) > 0] *)
Definition py_nonempty (v : value) : result bool :=
  py_and (mret (py_bool v)) (n ← py_len v; mret (0 <? n)).

(** [v.lower()] *)
Definition py_lower (v : value) : result string :=
  match v with
  | VStr s => Ok (lower s)
  | _ => Raise AttributeError
  end.

(** [sep.join(l)] *)
Fixpoint py_strings (l : list value) : result (list string) :=
  match l with
  | [] => Ok []
  | VStr s :: l' => ss ← py_strings l'; mret (s :: ss)
  | _ :: _ => Raise TypeError
  end.

Definition py_join (sep : string) (l : list value) : result string :=
  ss ← py_strings l; mret (String.concat sep ss).

(** [for x in v] *)
Definition py_iter (v : value) : result (list value) :=
  match v with
  | VList l => Ok l
  | VStr s => Ok (VStr <$> code_points s)
  | VDict d => Ok ((fun kv => VStr kv.1) <$> d)
  | _ => Raise TypeError
  end.

(** [v += s] for a [str] s: concatenation on a [str], [extend] by the
    characters of [s] on a [list] (in place; the program does not read the
    list through the payload again), a [TypeError] on anything else. *)
Definition py_iadd_str (v : value) (s : string) : result value :=
  match v with
  | VStr d => Ok (VStr (d +:+ s))
  | VList l => Ok (VList (l ++ (VStr <$> code_points s)))
  | _ => Raise TypeError
  end.

Fixpoint mapM {A B} (f : A → result B) (l : list A) : result (list B) :=
  match l with
  | [] => Ok []
  | x :: l' => y ← f x; ys ← mapM f l'; mret (y :: ys)
  end.

(** ** The shapes of the Event data model *)

(** [v[k1][k2]...] through dictionaries, when every key is there. *)
Fixpoint path_lookup (v : value) (path : list string) : option value :=
  match path with
  | [] => Some v
  | k :: path' =>
      match v with
      | VDict d =>
          match dict_lookup d k with
          | Some x => path_lookup x path'
          | None => None
          end
      | _ => None
      end
  end.

(** An optional field: missing, or of the given shape. *)
Definition field_ok (d : list (string * value)) (k : string)
    (shape : value → bool) : bool :=
  match dict_lookup d k with
  | Some v => shape v
  | None => true
  end.

Definition is_dict_of (shape : list (string * value) → bool) (v : value)
  : bool :=
  match v with
  | VDict d => shape d
  | _ => false
  end.

Definition is_string (v : value) : bool :=
  match v with
  | VStr _ => true
  | _ => false
  end.

(** A list; the program reads its first entry only. *)
Definition head_ok (shape : value → bool) (v : value) : bool :=
  match v with
  | VList [] => true
  | VList (x :: _) => shape x
  | _ => false
  end.

Definition list_of (shape : value → bool) (v : value) : bool :=
  match v with
  | VList l => forallb shape l
  | _ => false
  end.

Definition any_dict (d : list (string * value)) : bool := true.

(** An object with an optional string under "name". *)
Definition named_shape (d : list (string * value)) : bool :=
  field_ok d "name" is_string.

Definition start_shape (d : list (string * value)) : bool :=
  field_ok d "localDate" is_string.

Definition dates_shape (d : list (string * value)) : bool :=
  field_ok d "start" (is_dict_of start_shape)
  && field_ok d "status" (is_dict_of any_dict).

Definition venue_shape (d : list (string * value)) : bool :=
  field_ok d "city" (is_dict_of named_shape)
  && field_ok d "state" (is_dict_of named_shape)
  && field_ok d "country" (is_dict_of named_shape).

Definition venues_shape (d : list (string * value)) : bool :=
  field_ok d "venues" (head_ok (is_dict_of venue_shape)).

Definition embedded_shape (d : list (string * value)) : bool :=
  field_ok d "_embedded" (is_dict_of venues_shape).

Definition classification_shape (d : list (string * value)) : bool :=
  field_ok d "segment" (is_dict_of named_shape)
  && field_ok d "genre" (is_dict_of named_shape)
  && field_ok d "subGenre" (is_dict_of named_shape).

(** An event record: an object whose optional fields, where present, are
    shaped as the formatter reads them.  "name", "url", the prices, the
    currency, the local time and the status code may hold anything. *)
Definition event_fields (d : list (string * value)) : bool :=
  field_ok d "dates" (is_dict_of dates_shape)
  && field_ok d "embedded" (is_dict_of embedded_shape)
  && field_ok d "priceRanges" (head_ok (is_dict_of any_dict))
  && field_ok d "classifications" (head_ok (is_dict_of classification_shape)).

Definition event_shape (v : value) : bool := is_dict_of event_fields v.

(** The payload of a search: an error object, or an object whose optional
    embedded events are a list of event records. *)
Definition search_shape (v : value) : bool :=
  is_dict_of (fun d =>
    dict_mem d "error"
    || field_ok d "_embedded"
         (is_dict_of (fun e => field_ok e "events" (list_of event_shape)))) v.

(** The payload of a look-up by id: an error object or an event record. *)
Definition detail_shape (v : value) : bool :=
  is_dict_of (fun d => dict_mem d "error" || event_fields d) v.

(** ** Query parameters, requests and the store *)

(** The values the tools put in a parameter dictionary. *)
Inductive pval : Type :=
| PNone
| PStr (s : string)
| PInt (n : Z).

#[global] Instance pval_eq_dec : EqDecision pval.
Proof. solve_decision. Defined.

Record request : Type := Request {
  req_url : string;
  req_params : gmap string pval;
  req_timeout : Z
}.

(** The outcome of the [try] block of the gateway: the decoded body, or the
    exception that one of its three statements raised. *)
Inductive http_result : Type :=
| Json (body : value)
| HTTPStatusError (status_code : Z)
| RequestError
| OtherException (msg : string).

Definition loc := positive.

Record world : Type := World {
  heap : gmap loc (gmap string pval);
  sent : list request
}.

(** A tool runs against the store and the log of requests sent. *)
Definition tool (A : Type) : Type := world → result A * world.

#[global] Instance tool_ret : MRet tool := fun A a w => (Ok a, w).
#[global] Instance tool_bind : MBind tool := fun A B f m w =>
  match m w with
  | (Ok a, w') => f a w'
  | (Raise e, w') => (Raise e, w')
  end.

Definition lift {A} (r : result A) : tool A := fun w => (r, w).

(** A dictionary display or comprehension: a new object. *)
Definition alloc (m : gmap string pval) : tool loc := fun w =>
  let l := fresh (dom (heap w)) in
  (Ok l, World (<[l := m]> (heap w)) (sent w)).

Definition load (l : loc) : tool (gmap string pval) := fun w =>
  match heap w !! l with
  | Some m => (Ok m, w)
  | None => (Raise UnboundReference, w)
  end.

Definition store (l : loc) (m : gmap string pval) : tool unit := fun w =>
  (Ok tt, World (<[l := m]> (heap w)) (sent w)).

Definition TICKETMASTER_API_BASE : string :=
  "https://app.ticketmaster.com/discovery/v2".

Section Events.

(** The API key read from the environment at start-up. *)
Variable TICKETMASTER_API_KEY : string.

(** [repr] on a [str]: the quoting and escaping of CPython, which follows
    the Unicode database.  The program only passes its result through. *)
Variable str_repr : string → string.

(** The remote service: what the [try] block yields for a request. *)
Variable server : request → http_result.

(** [repr(v)] and [str(v)] *)
Fixpoint py_repr (v : value) : string :=
  match v with
  | VNone => "None"
  | VBool true => "True"
  | VBool false => "False"
  | VInt n => str_of_int n
  | VFloat _ text => text
  | VStr s => str_repr s
  | VList l => "[" +:+ String.concat ", " (map py_repr l) +:+ "]"
  | VDict d =>
      "{" +:+ String.concat ", "
        (map (fun '(k, x) => str_repr k +:+ ": " +:+ py_repr x) d) +:+ "}"
  end.

Definition py_str (v : value) : string :=
  match v with
  | VStr s => s
  | _ => py_repr v
  end.

(** ** make_ticketmaster_request *)

Definition send (r : request) : tool http_result := fun w =>
  (Ok (server r), World (heap w) (sent w ++ [r])).

Definition error_dict (msg : string) : value := VDict [("error", VStr msg)].

(** The [except] clauses of lines 41-51, and the [return] of line 40. *)
Definition gateway_reply (r : http_result) : value :=
  match r with
  | Json body => body
  | HTTPStatusError status_code =>
      if status_code =? 429 then
        error_dict "Rate limit exceeded. Please try again later."
      else if status_code =? 401 then
        error_dict "Unauthorized. Please check your API key."
      else
        error_dict ("HTTP error: " +:+ str_of_int status_code)
  | RequestError => error_dict "Failed to connect to Ticketmaster API."
  | OtherException msg =>
      error_dict ("An unexpected error occurred: " +:+ msg)
  end.

Definition make_ticketmaster_request (endpoint : string) (params : loc)
  : tool value :=
  m ← load params;
  _ ← store params (<["apikey" := PStr TICKETMASTER_API_KEY]> m);
  let url := TICKETMASTER_API_BASE +:+ "/" +:+ endpoint in
  m' ← load params;
  r ← send (Request url m' 30);
  mret (gateway_reply r).

(** ** format_event *)

(** Lines 57-65. *)
Definition date_info (event : value) : result string :=
  c ← py_and (py_in "dates" event)
             (dates ← py_getitem event "dates"; py_in "start" dates);
  if (c : bool) then
    start_date ← (dates ← py_getitem event "dates"; py_getitem dates "start");
    has_date ← py_in "localDate" start_date;
    if (has_date : bool) then
      date ← py_getitem start_date "localDate";
      has_time ← py_in "localTime" start_date;
      date ← (if (has_time : bool) then
                local_time ← py_getitem start_date "localTime";
                py_iadd_str date (" " +:+ py_str local_time)
              else mret date);
      mret ("Date: " +:+ py_str date +:+ nl)
    else mret ""
  else mret "".

(** [event["embedded"]["_embedded"]] *)
Definition embedded_embedded (event : value) : result value :=
  e ← py_getitem event "embedded"; py_getitem e "_embedded".

(** [venue.get(k, {}).get("name", "")] *)
Definition venue_part (venue : value) (k : string) : result value :=
  x ← py_get venue k (VDict []); py_get x "name" (VStr "").

(** Lines 67-78. *)
Definition venue_info (event : value) : result string :=
  c ← py_and (py_in "embedded" event)
         (py_and (e ← py_getitem event "embedded"; py_in "_embedded" e)
                 (e ← embedded_embedded event; py_in "venues" e));
  if (c : bool) then
    venues ← (e ← embedded_embedded event; py_getitem e "venues");
    some ← py_nonempty venues;
    if (some : bool) then
      venue ← py_getitem0 venues;
      venue_name ← py_get venue "name" (VStr "Unknown Venue");
      city ← venue_part venue "city";
      state ← venue_part venue "state";
      country ← venue_part venue "country";
      location ← py_join ", " (List.filter py_bool [city; state; country]);
      mret ("Venue: " +:+ py_str venue_name +:+ ", " +:+ location +:+ nl)
    else mret ""
  else mret "".

(** Lines 80-91. *)
Definition price_info (event : value) : result string :=
  has ← py_in "priceRanges" event;
  if (has : bool) then
    price_ranges ← py_getitem event "priceRanges";
    some ← py_nonempty price_ranges;
    if (some : bool) then
      min_price ← (r ← py_getitem0 price_ranges; py_get r "min" VNone);
      max_price ← (r ← py_getitem0 price_ranges; py_get r "max" VNone);
      currency ← (r ← py_getitem0 price_ranges; py_get r "currency" (VStr "USD"));
      if (py_bool min_price && py_bool max_price)%bool then
        mret ("Price Range: " +:+ py_str min_price +:+ "-" +:+ py_str max_price
              +:+ " " +:+ py_str currency +:+ nl)
      else if py_bool min_price then
        mret ("Starting Price: " +:+ py_str min_price +:+ " " +:+ py_str currency
              +:+ nl)
      else mret ""
    else mret ""
  else mret "".

(** The chain of comparisons of the status code, with the text of each. *)
Definition status_text (status_code : value) : option string :=
  if is_str "onsale" status_code then Some "On Sale"
  else if is_str "offsale" status_code then Some "Off Sale"
  else if is_str "cancelled" status_code then Some "Cancelled"
  else if is_str "postponed" status_code then Some "Postponed"
  else if is_str "rescheduled" status_code then Some "Rescheduled"
  else None.

(** Lines 93-107. *)
Definition ticket_info (event : value) : result string :=
  c ← py_and (py_in "dates" event)
             (dates ← py_getitem event "dates"; py_in "status" dates);
  if (c : bool) then
    status ← (dates ← py_getitem event "dates"; py_getitem dates "status");
    status_code ← py_get status "code" (VStr "");
    match status_text status_code with
    | Some t => mret ("Ticket Status: " +:+ t +:+ nl)
    | None => mret ""
    end
  else mret "".

(** Lines 109-112. *)
Definition url_info (event : value) : result string :=
  has ← py_in "url" event;
  if (has : bool) then
    url ← py_getitem event "url";
    mret ("Tickets: " +:+ py_str url +:+ nl)
  else mret "".

(** One of the three blocks of lines 120-133: the name under
    [classification[k]] is appended to [segments] when it is true and does
    not lower to "undefined". *)
Definition genre_component (classification : value) (k : string)
    (segments : list value) : result (list value) :=
  c ← py_and (py_in k classification)
             (x ← py_getitem classification k; mret (py_bool x));
  if (c : bool) then
    name ← (x ← py_getitem classification k; py_get x "name" VNone);
    keep ← py_and (mret (py_bool name))
                  (l ← py_lower name; mret (negb (String.eqb l "undefined")));
    if (keep : bool) then mret (segments ++ [name]) else mret segments
  else mret segments.

(** Lines 114-136. *)
Definition genre_info (event : value) : result string :=
  c ← py_and (py_in "classifications" event)
             (x ← py_getitem event "classifications"; mret (py_bool x));
  if (c : bool) then
    classification ← (x ← py_getitem event "classifications"; py_getitem0 x);
    segments ← genre_component classification "segment" [];
    segments ← genre_component classification "genre" segments;
    segments ← genre_component classification "subGenre" segments;
    match segments with
    | [] => mret ""
    | _ => joined ← py_join " | " segments;
           mret ("Genre: " +:+ joined +:+ nl)
    end
  else mret "".

(** The text block of lines 139-142 from the name and the six parts. *)
Definition event_block (name : string)
    (date venue genre price ticket url : string) : string :=
  nl +:+ "Event: " +:+ name +:+ nl
     +:+ date +:+ venue +:+ genre +:+ price +:+ ticket +:+ url +:+ nl.

Definition format_event (event : value) : result string :=
  name ← py_get event "name" (VStr "Unknown Event");
  date ← date_info event;
  venue ← venue_info event;
  price ← price_info event;
  ticket ← ticket_info event;
  url ← url_info event;
  genre ← genre_info event;
  mret (event_block (py_str name) date venue genre price ticket url).

(** The header name: [event.get("name", "Unknown Event")] as text. *)
Definition event_name (d : list (string * value)) : string :=
  py_str (default (VStr "Unknown Event") (dict_lookup d "name")).

(** ** extract_events *)

Definition extract_events (data : value) : result value :=
  c ← py_and (py_in "_embedded" data)
             (e ← py_getitem data "_embedded"; py_in "events" e);
  if (c : bool) then e ← py_getitem data "_embedded"; py_getitem e "events"
  else mret (VList []).

(** ** The tools *)

(** The common tail of the four search tools: lines 171-181 and their
    copies, with the "no results" message and the header of each. *)
Definition render_search (data : value) (none_found header : string)
  : result string :=
  failed ← py_in "error" data;
  if (failed : bool) then
    e ← py_getitem data "error"; mret ("Error: " +:+ py_str e)
  else
    events ← extract_events data;
    if negb (py_bool events) then mret none_found
    else
      evs ← py_iter events;
      formatted_events ← mapM format_event evs;
      mret (header +:+ nl +:+ nl +:+ String.concat nl formatted_events).

(** The dictionary display of lines 163-167. *)
Definition artist_params (artist : string) (size : Z) : gmap string pval :=
  <["keyword" := PStr artist]>
  (<["size" := PInt size]>
  (<["sort" := PStr "date,asc"]> ∅)).

Definition search_events_by_artist (artist : string) (size : Z) : tool string :=
  params ← alloc (artist_params artist size);
  data ← make_ticketmaster_request "events.json" params;
  lift (render_search data
          ("No upcoming events found for artist: " +:+ artist)
          ("Upcoming events for " +:+ artist +:+ ":")).

(** [{k: v for k, v in params.items() if v is not None}] *)
Definition drop_none (m : gmap string pval) : gmap string pval :=
  filter (fun kv => kv.2 ≠ PNone) m.

Definition startswith (prefix s : string) : bool := String.prefix prefix s.

(** The dictionary display of lines 191-196. *)
Definition venue_params (venue : string) (size : Z) : gmap string pval :=
  <["venueId" := if startswith "KovZ" venue then PStr venue else PNone]>
  (<["keyword" := if startswith "KovZ" venue then PNone else PStr venue]>
  (<["size" := PInt size]>
  (<["sort" := PStr "date,asc"]> ∅))).

Definition search_events_by_venue (venue : string) (size : Z) : tool string :=
  params ← alloc (venue_params venue size);
  m ← load params;
  params ← alloc (drop_none m);
  data ← make_ticketmaster_request "events.json" params;
  lift (render_search data
          ("No upcoming events found for venue: " +:+ venue)
          ("Upcoming events at " +:+ venue +:+ ":")).

Definition opt_pval (o : option string) : pval :=
  match o with
  | Some s => PStr s
  | None => PNone
  end.

(** [if o:] on an optional string argument *)
Definition opt_true (o : option string) : bool :=
  match o with
  | Some s => negb (String.eqb s "")
  | None => false
  end.

(** The dictionary display of lines 230-236. *)
Definition location_params (city : string) (state : option string)
    (country : string) (size : Z) : gmap string pval :=
  <["city" := PStr city]>
  (<["stateCode" := opt_pval state]>
  (<["countryCode" := PStr country]>
  (<["size" := PInt size]>
  (<["sort" := PStr "date,asc"]> ∅)))).

(** Lines 226-228. *)
Definition location_text (city : string) (state : option string) : string :=
  if opt_true state then city +:+ "," +:+ default "" state else city.

Definition search_events_by_location (city : string) (state : option string)
    (country : string) (size : Z) : tool string :=
  let location := location_text city state in
  params ← alloc (location_params city state country size);
  m ← load params;
  params ← alloc (drop_none m);
  data ← make_ticketmaster_request "events.json" params;
  lift (render_search data
          ("No upcoming events found in " +:+ location)
          ("Upcoming events in " +:+ location +:+ ":")).

(** Lines 266-269. *)
Definition render_details (data : value) : result string :=
  failed ← py_in "error" data;
  if (failed : bool) then
    e ← py_getitem data "error"; mret ("Error: " +:+ py_str e)
  else format_event data.

Definition get_event_details (event_id : string) : tool string :=
  params ← alloc ∅;
  data ← make_ticketmaster_request ("events/" +:+ event_id +:+ ".json") params;
  lift (render_details data).

(** The dictionary display of lines 280-285. *)
Definition genre_params (genre : string) (city : option string) (size : Z)
  : gmap string pval :=
  <["classificationName" := PStr genre]>
  (<["city" := opt_pval city]>
  (<["size" := PInt size]>
  (<["sort" := PStr "date,asc"]> ∅))).

(** [f" in {city}" if city else ""] *)
Definition location_info (city : option string) : string :=
  if opt_true city then " in " +:+ default "" city else "".

Definition search_events_by_genre (genre : string) (city : option string)
    (size : Z) : tool string :=
  params ← alloc (genre_params genre city size);
  m ← load params;
  params ← alloc (drop_none m);
  data ← make_ticketmaster_request "events.json" params;
  let location_info := location_info city in
  lift (render_search data
          ("No upcoming " +:+ genre +:+ " events found" +:+ location_info)
          ("Upcoming " +:+ genre +:+ " events" +:+ location_info +:+ ":")).

(** Lines 320-334 of check_ticket_availability. *)
Definition ticket_status (data : value) : result string :=
  c ← py_and (py_in "dates" data)
             (dates ← py_getitem data "dates"; py_in "status" dates);
  if (c : bool) then
    status ← (dates ← py_getitem data "dates"; py_getitem dates "status");
    status_code ← py_get status "code" (VStr "");
    mret (default "Unknown" (status_text status_code))
  else mret "Unknown".

(** Lines 336-347 of check_ticket_availability. *)
Definition availability_price (data : value) : result string :=
  has ← py_in "priceRanges" data;
  if (has : bool) then
    price_ranges ← py_getitem data "priceRanges";
    some ← py_nonempty price_ranges;
    if (some : bool) then
      min_price ← (r ← py_getitem0 price_ranges; py_get r "min" VNone);
      max_price ← (r ← py_getitem0 price_ranges; py_get r "max" VNone);
      currency ← (r ← py_getitem0 price_ranges; py_get r "currency" (VStr "USD"));
      if (py_bool min_price && py_bool max_price)%bool then
        mret ("Price Range: " +:+ py_str min_price +:+ "-" +:+ py_str max_price
              +:+ " " +:+ py_str currency)
      else if py_bool min_price then
        mret ("Starting Price: " +:+ py_str min_price +:+ " " +:+ py_str currency)
      else mret "Price information not available"
    else mret "Price information not available"
  else mret "Price information not available".

(** Lines 317-359. *)
Definition render_availability (data : value) : result string :=
  failed ← py_in "error" data;
  if (failed : bool) then
    e ← py_getitem data "error"; mret ("Error: " +:+ py_str e)
  else
    ticket_status ← ticket_status data;
    price_info ← availability_price data;
    ticket_link ← py_get data "url" (VStr "No ticket link available");
    event_name ← py_get data "name" (VStr "Unknown Event");
    mret (nl +:+ "Ticket Availability for: " +:+ py_str event_name +:+ nl
          +:+ "Status: " +:+ ticket_status +:+ nl
          +:+ price_info +:+ nl
          +:+ "Ticket Link: " +:+ py_str ticket_link +:+ nl).

Definition check_ticket_availability (event_id : string) : tool string :=
  params ← alloc ∅;
  data ← make_ticketmaster_request ("events/" +:+ event_id +:+ ".json") params;
  lift (render_availability data).

(** ** What a tool sends and what it does with the reply *)

(** The request the gateway sends for an endpoint and the parameters it was
    given: the API key is in the parameters, the timeout is 30 seconds. *)
Definition sent_request (endpoint : string) (m : gmap string pval) : request :=
  Request (TICKETMASTER_API_BASE +:+ "/" +:+ endpoint)
          (<["apikey" := PStr TICKETMASTER_API_KEY]> m) 30.

(** A tool sends the one request [req] and returns what [k] makes of the
    gateway's reply to it. *)
Definition runs_as {A} (t : tool A) (w : world) (req : request)
    (k : value → result A) : Prop :=
  ∃ w', t w = (k (gateway_reply (server req)), w')
        ∧ sent w' = sent w ++ [req].

(** A property of what each of the six tools returns, for all arguments. *)
Definition every_tool (w : world) (P : result string → Prop) : Prop :=
  (∀ artist size, P (search_events_by_artist artist size w).1)
  ∧ (∀ venue size, P (search_events_by_venue venue size w).1)
  ∧ (∀ city state country size,
       P (search_events_by_location city state country size w).1)
  ∧ (∀ genre city size, P (search_events_by_genre genre city size w).1)
  ∧ (∀ event_id, P (get_event_details event_id w).1)
  ∧ (∀ event_id, P (check_ticket_availability event_id w).1).

(** The [try] block of the gateway raised. *)
Definition is_failure (r : http_result) : bool :=
  match r with
  | Json _ => false
  | _ => true
  end.

(** The service answers a search with a search payload and a look-up by id
    with an event record, whenever it answers with a body at all. *)
Definition shaped_server : Prop :=
  ∀ r body, server r = Json body →
    if String.eqb (req_url r) (TICKETMASTER_API_BASE +:+ "/events.json")
    then search_shape body = true
    else detail_shape body = true.

(** ** The optional fields of an event and their lines *)

Inductive optional_field : Type :=
| Date
| Venue
| Genre
| PriceRange
| TicketStatus
| Url.

(** Where the formatter reads each optional field. *)
Definition field_path (f : optional_field) : list string :=
  match f with
  | Date => ["dates"; "start"; "localDate"]
  | Venue => ["embedded"; "_embedded"; "venues"]
  | Genre => ["classifications"]
  | PriceRange => ["priceRanges"]
  | TicketStatus => ["dates"; "status"; "code"]
  | Url => ["url"]
  end.

(** The words a line of each field starts with. *)
Definition field_labels (f : optional_field) : list string :=
  match f with
  | Date => ["Date: "]
  | Venue => ["Venue: "]
  | Genre => ["Genre: "]
  | PriceRange => ["Price Range: "; "Starting Price: "]
  | TicketStatus => ["Ticket Status: "]
  | Url => ["Tickets: "]
  end.

(** A block's text is nothing, or a line that starts with a label of its
    field. *)
Definition line_of (f : optional_field) (s : string) : Prop :=
  s = "" ∨ existsb (fun l => String.prefix l s) (field_labels f) = true.

(** The block of [format_event] that renders each optional field. *)
Definition field_line (f : optional_field) (event : value) : result string :=
  match f with
  | Date => date_info event
  | Venue => venue_info event
  | Genre => genre_info event
  | PriceRange => price_info event
  | TicketStatus => ticket_info event
  | Url => url_info event
  end.

(** ** The genre line as the specification words it

    The name of a component of the classification, when the component is an
    object that holds a string under "name". *)
Definition component_name (c : list (string * value)) (k : string)
  : option string :=
  match dict_lookup c k with
  | Some (VDict g) =>
      match dict_lookup g "name" with
      | Some (VStr n) => Some n
      | _ => None
      end
  | _ => None
  end.

Definition undefined_ci (n : string) : bool :=
  String.eqb (lower n) "undefined".

Definition kept (n : string) : bool :=
  (negb (String.eqb n "") && negb (undefined_ci n))%bool.

Definition kept_component (c : list (string * value)) (k : string)
  : list string :=
  match component_name c k with
  | Some n => if kept n then [n] else []
  | None => []
  end.

Definition genre_names (c : list (string * value)) : list string :=
  kept_component c "segment" ++ kept_component c "genre"
    ++ kept_component c "subGenre".

Definition genre_line (names : list string) : string :=
  match names with
  | [] => ""
  | _ => "Genre: " +:+ String.concat " | " names +:+ nl
  end.

Definition first_classification (d : list (string * value))
  : list (string * value) :=
  match dict_lookup d "classifications" with
  | Some (VList (VDict c :: _)) => c
  | _ => []
  end.


(** ** What is said of the requests and of the venue line *)

(** No parameter is [None]. *)
Definition no_none (m : gmap string pval) : Prop :=
  ∀ k, m !! k ≠ Some PNone.

(** A property of the outcome of each of the six tools, result and final
    world, for all arguments. *)
Definition every_tool_run (w : world) (P : result string * world → Prop)
  : Prop :=
  (∀ artist size, P (search_events_by_artist artist size w))
  ∧ (∀ venue size, P (search_events_by_venue venue size w))
  ∧ (∀ city state country size,
       P (search_events_by_location city state country size w))
  ∧ (∀ genre city size, P (search_events_by_genre genre city size w))
  ∧ (∀ event_id, P (get_event_details event_id w))
  ∧ (∀ event_id, P (check_ticket_availability event_id w)).

(** Each of the six tools, for all arguments, adds one request to the log,
    and [P] holds of it. *)
Definition every_tool_sends (w : world) (P : request → Prop) : Prop :=
  every_tool_run w (fun out =>
    ∃ req, sent out.2 = sent w ++ [req] ∧ P req).

(** A property of what each of the four searches returns. *)
Definition every_search (w : world) (P : result string → Prop) : Prop :=
  (∀ artist size, P (search_events_by_artist artist size w).1)
  ∧ (∀ venue size, P (search_events_by_venue venue size w).1)
  ∧ (∀ city state country size,
       P (search_events_by_location city state country size w).1)
  ∧ (∀ genre city size, P (search_events_by_genre genre city size w).1).

(** The keys of an event that [format_event] reads. *)
Definition event_keys : list string :=
  ["name"; "dates"; "embedded"; "priceRanges"; "url"; "classifications"].

(** The name under [venue[k]], or the empty string. *)
Definition venue_part_name (venue : list (string * value)) (k : string)
  : string :=
  match dict_lookup venue k with
  | Some (VDict c) =>
      match dict_lookup c "name" with
      | Some (VStr n) => n
      | _ => ""
      end
  | _ => ""
  end.

(** The city, state and country of a venue that are not empty, joined. *)
Definition venue_location (venue : list (string * value)) : string :=
  String.concat ", "
    (List.filter (fun n => negb (String.eqb n ""))
       [venue_part_name venue "city"; venue_part_name venue "state";
        venue_part_name venue "country"]).

(** A value that is neither a string nor a list nor an object. *)
Definition is_scalar (v : value) : bool :=
  match v with
  | VNone | VBool _ | VInt _ | VFloat _ _ => true
  | _ => false
  end.

(** ** Sample records and services *)

(** A [repr] for strings without quotes or escapes to care about. *)
Definition quote_repr (s : string) : string := "'" +:+ s +:+ "'".

(** An event with a name and a ticket link only. *)
Definition bare_event : list (string * value) :=
  [("name", VStr "Open Mic Night"); ("url", VStr "https://tm.example/e/1")].

(** An event with every field, its venues where the formatter reads them. *)
Definition full_event : list (string * value) :=
  [("name", VStr "Radiohead Live");
   ("dates", VDict
      [("start", VDict [("localDate", VStr "2025-06-01");
                        ("localTime", VStr "19:30:00")]);
       ("status", VDict [("code", VStr "onsale")])]);
   ("embedded", VDict [("_embedded", VDict [("venues", VList
      [VDict [("name", VStr "Madison Square Garden");
              ("city", VDict [("name", VStr "New York")]);
              ("state", VDict [("name", VStr "New York")]);
              ("country", VDict [("name", VStr "United States Of America")])]])])]);
   ("priceRanges", VList [VDict [("min", VInt 20); ("max", VInt 50)]]);
   ("url", VStr "https://tm.example/e/2");
   ("classifications", VList
      [VDict [("segment", VDict [("name", VStr "Music")]);
              ("genre", VDict [("name", VStr "Rock")]);
              ("subGenre", VDict [("name", VStr "Undefined")])]])].


(** A search payload with no embedded events. *)
Definition empty_page : value :=
  VDict [("page", VDict [("size", VInt 5); ("totalElements", VInt 0)])].

Definition events_page : value :=
  VDict [("_embedded", VDict [("events", VList [VDict full_event;
                                                  VDict bare_event])])].

(** A service that answers searches with [events_page] and look-ups with
    [full_event]. *)
Definition sample_server (r : request) : http_result :=
  if String.eqb (req_url r) (TICKETMASTER_API_BASE +:+ "/events.json")
  then Json events_page
  else Json (VDict full_event).

(** A service that answers every look-up with a number under "dates". *)
Definition misshaped_server (r : request) : http_result :=
  Json (VDict [("name", VStr "Radiohead Live"); ("dates", VInt 5)]).

Definition rate_limited_server (r : request) : http_result :=
  HTTPStatusError 429.

Definition empty_world : world := World ∅ [].

(** A store with one parameter dictionary, as the artist tool builds it. *)
Definition one_dict_world : world :=
  World {[ 1%positive :=
             <["keyword" := PStr "Radiohead"]> (<["size" := PInt 5]> ∅) ]} [].

(** A payload that holds an "error" entry beside its events. *)
Definition error_page : list (string * value) :=
  [("error", VStr "quota"); ("_embedded", VDict [("events", VList [VDict bare_event])])].

Definition unauthorized_server (r : request) : http_result :=
  HTTPStatusError 401.

(** What [format_event] makes of [bare_event]. *)
Definition bare_block : string :=
  nl +:+ "Event: Open Mic Night" +:+ nl
     +:+ "Tickets: https://tm.example/e/1" +:+ nl +:+ nl.

(** A page with one event, and one with a string after the event. *)
Definition bare_embedded (events : list value) : list (string * value) :=
  [("events", VList events)].

Definition bare_page (events : list value) : list (string * value) :=
  [("_embedded", VDict (bare_embedded events))].

(** The start, the dates and the venue of [full_event]. *)
Definition full_start : list (string * value) :=
  [("localDate", VStr "2025-06-01"); ("localTime", VStr "19:30:00")].

Definition full_dates : list (string * value) :=
  [("start", VDict full_start); ("status", VDict [("code", VStr "onsale")])].

Definition full_venue : list (string * value) :=
  [("name", VStr "Madison Square Garden");
   ("city", VDict [("name", VStr "New York")]);
   ("state", VDict [("name", VStr "New York")]);
   ("country", VDict [("name", VStr "United States Of America")])].

(** [bare_event] with its keys the other way round and one key more. *)
Definition bare_event_more : list (string * value) :=
  [("id", VStr "Z7r9jZ1Ad"); ("url", VStr "https://tm.example/e/1");
   ("name", VStr "Open Mic Night")].

(** * Properties *)

(** ** Reading a shaped record *)

Lemma field_ok_dict d k shape :
  field_ok d k (is_dict_of shape) = true →
  dict_lookup d k = None ∨
  ∃ x, dict_lookup d k = Some (VDict x) ∧ shape x = true.
Proof.
  unfold field_ok. destruct (dict_lookup d k) as [[]|]; cbn; try discriminate; eauto.
Qed.

Lemma field_ok_string d k :
  field_ok d k is_string = true →
  dict_lookup d k = None ∨ ∃ s, dict_lookup d k = Some (VStr s).
Proof.
  unfold field_ok. destruct (dict_lookup d k) as [[]|]; cbn; try discriminate; eauto.
Qed.

Lemma field_ok_head d k shape :
  field_ok d k (head_ok shape) = true →
  dict_lookup d k = None ∨ dict_lookup d k = Some (VList []) ∨
  ∃ x rest, dict_lookup d k = Some (VList (x :: rest)) ∧ shape x = true.
Proof.
  unfold field_ok. destruct (dict_lookup d k) as [[| | | | |[|x rest]|]|]; cbn;
    try discriminate; eauto 10.
Qed.

Lemma is_dict_of_inv shape v :
  is_dict_of shape v = true → ∃ d, v = VDict d ∧ shape d = true.
Proof. destruct v; cbn; try discriminate; eauto. Qed.

Lemma py_nonempty_nil : py_nonempty (VList []) = Ok false.
Proof. reflexivity. Qed.

Lemma py_nonempty_cons x l : py_nonempty (VList (x :: l)) = Ok true.
Proof. reflexivity. Qed.

Ltac py_unfold :=
  unfold py_and, py_in, py_getitem, py_getitem0, py_get, py_len,
    py_join, dict_mem, mbind, result_bind, mret, result_ret in *.

Ltac use_lookups :=
  repeat first
    [ progress cbn [path_lookup field_path dict_lookup]
    | rewrite py_nonempty_nil
    | rewrite py_nonempty_cons
    | match goal with
      | H : dict_lookup ?d ?k = _ |- context [dict_lookup ?d ?k] => rewrite H
      end ].

Ltac shape_cases :=
  repeat match goal with
  | H : (_ && _)%bool = true |- _ => apply andb_true_iff in H; destruct H
  | H : field_ok _ _ (is_dict_of _) = true |- _ =>
      apply field_ok_dict in H; destruct H as [? | (? & ? & ?)]
  | H : field_ok _ _ is_string = true |- _ =>
      apply field_ok_string in H; destruct H as [? | (? & ?)]
  | H : field_ok _ _ (head_ok _) = true |- _ =>
      apply field_ok_head in H; destruct H as [? | [? | (? & ? & ? & ?)]]
  | H : is_dict_of _ _ = true |- _ =>
      apply is_dict_of_inv in H; destruct H as (? & -> & ?)
  | H : dates_shape _ = true |- _ => unfold dates_shape in H
  | H : start_shape _ = true |- _ => unfold start_shape in H
  | H : named_shape _ = true |- _ => unfold named_shape in H
  | H : venue_shape _ = true |- _ => unfold venue_shape in H
  | H : venues_shape _ = true |- _ => unfold venues_shape in H
  | H : embedded_shape _ = true |- _ => unfold embedded_shape in H
  | H : classification_shape _ = true |- _ => unfold classification_shape in H
  end.

Ltac free_lookups :=
  repeat first
    [ progress use_lookups
    | match goal with
      | |- context [dict_lookup ?d ?k] => destruct (dict_lookup d k) eqn:?
      end ].

Lemma prefix_app (l s : string) : String.prefix l (l +:+ s) = true.
Proof.
  induction l as [|c l IH]; [destruct s; reflexivity|].
  change (String.prefix (String c l) (String c (l +:+ s)) = true).
  cbn [String.prefix]. destruct (ascii_dec c c); [exact IH | congruence].
Qed.

Ltac give_label :=
  first
    [ left; reflexivity
    | right; cbn [existsb field_labels];
      rewrite ?prefix_app, ?orb_true_r; reflexivity ].

Ltac give_line :=
  try (eexists; split; [reflexivity|]; split;
       [ intros; try discriminate; reflexivity | give_label ]).



(** ** The blocks of the formatter on event records *)

Lemma date_info_shaped d :
  field_ok d "dates" (is_dict_of dates_shape) = true →
  ∃ s, date_info (VDict d) = Ok s
       ∧ (path_lookup (VDict d) (field_path Date) = None → s = "")
       ∧ line_of Date s.
Proof.
  intros H. unfold date_info. py_unfold. shape_cases; free_lookups; give_line.
Qed.

Lemma ticket_info_shaped d :
  field_ok d "dates" (is_dict_of dates_shape) = true →
  ∃ s, ticket_info (VDict d) = Ok s
       ∧ (path_lookup (VDict d) (field_path TicketStatus) = None → s = "")
       ∧ line_of TicketStatus s.
Proof.
  intros H. unfold ticket_info. py_unfold. shape_cases; free_lookups; give_line.
  all: match goal with |- context [status_text ?c] =>
         destruct (status_text c) end; give_line.
Qed.

Lemma url_info_shaped d :
  ∃ s, url_info (VDict d) = Ok s
       ∧ (path_lookup (VDict d) (field_path Url) = None → s = "")
       ∧ line_of Url s.
Proof.
  unfold url_info. py_unfold. free_lookups; give_line.
Qed.

Lemma price_info_shaped d :
  field_ok d "priceRanges" (head_ok (is_dict_of any_dict)) = true →
  ∃ s, price_info (VDict d) = Ok s
       ∧ (path_lookup (VDict d) (field_path PriceRange) = None → s = "")
       ∧ line_of PriceRange s.
Proof.
  intros H. unfold price_info. py_unfold. shape_cases; free_lookups; give_line.
  all: cbn; free_lookups;
    repeat match goal with |- context [py_bool ?v] => destruct (py_bool v) end;
    give_line.
Qed.

Lemma venue_info_shaped d :
  field_ok d "embedded" (is_dict_of embedded_shape) = true →
  ∃ s, venue_info (VDict d) = Ok s
       ∧ (path_lookup (VDict d) (field_path Venue) = None → s = "")
       ∧ line_of Venue s.
Proof.
  intros H. unfold venue_info, embedded_embedded, venue_part. py_unfold.
  shape_cases; free_lookups; give_line.
  all: cbn -[String.eqb];
    repeat match goal with
    | |- context [String.eqb ?a ?b] => destruct (String.eqb a b) eqn:?
    end; cbn; give_line.
Qed.

Lemma py_strings_strs (l : list string) : py_strings (VStr <$> l) = Ok l.
Proof.
  induction l as [|n l IH]; [reflexivity|]. cbn. rewrite IH. reflexivity.
Qed.

Lemma genre_component_shaped c k segments :
  field_ok c k (is_dict_of named_shape) = true →
  genre_component (VDict c) k segments = Ok (segments ++ (VStr <$> kept_component c k)).
Proof.
  intros H. unfold genre_component, kept_component, component_name, kept,
    undefined_ci, py_lower.
  py_unfold. shape_cases; free_lookups; try rewrite app_nil_r; try reflexivity.
  all: cbn -[String.eqb lower];
    try match goal with
        | |- context [match ?x with [] => _ | _ :: _ => _ end] =>
            is_var x; destruct x; cbn -[String.eqb lower] in *;
            try discriminate
        end;
    repeat match goal with
    | |- context [String.eqb ?a ?b] => destruct (String.eqb a b) eqn:?
    end;
    cbn; try rewrite app_nil_r; try reflexivity.
Qed.

Lemma genre_info_shaped d :
  field_ok d "classifications" (head_ok (is_dict_of classification_shape)) = true →
  genre_info (VDict d) = Ok (genre_line (genre_names (first_classification d))).
Proof.
  intros H. unfold genre_info, first_classification.
  apply field_ok_head in H as [H | [H | (x & rest & H & Hx)]].
  - py_unfold. rewrite H. reflexivity.
  - py_unfold. rewrite H. reflexivity.
  - apply is_dict_of_inv in Hx as (c & -> & Hc).
    unfold classification_shape in Hc.
    apply andb_true_iff in Hc as [Hc Hsub].
    apply andb_true_iff in Hc as [Hseg Hgen].
    unfold py_and, py_in, py_getitem, py_getitem0, dict_mem.
    rewrite H. cbn -[genre_component].
    rewrite (genre_component_shaped c "segment") by assumption.
    cbn -[genre_component].
    rewrite (genre_component_shaped c "genre") by assumption.
    cbn -[genre_component].
    rewrite (genre_component_shaped c "subGenre") by assumption.
    cbn -[genre_component].
    rewrite <- !fmap_app, <- app_assoc. fold (genre_names c).
    destruct (genre_names c) as [|n names]; [reflexivity|].
    change (VStr n :: (VStr <$> names)) with (VStr <$> (n :: names)).
    cbn [fmap list_fmap]. unfold py_join.
    change (VStr n :: (VStr <$> names)) with (VStr <$> (n :: names)).
    rewrite py_strings_strs. reflexivity.
Qed.


(** ** format_event on event records *)

Lemma event_fields_inv d :
  event_fields d = true →
  field_ok d "dates" (is_dict_of dates_shape) = true
  ∧ field_ok d "embedded" (is_dict_of embedded_shape) = true
  ∧ field_ok d "priceRanges" (head_ok (is_dict_of any_dict)) = true
  ∧ field_ok d "classifications"
      (head_ok (is_dict_of classification_shape)) = true.
Proof.
  unfold event_fields. rewrite !andb_true_iff.
  intros [[[Hd He] Hp] Hc]. repeat split; assumption.
Qed.

Lemma genre_line_labelled names : line_of Genre (genre_line names).
Proof. unfold genre_line. destruct names; give_label. Qed.

(** The labels tell the fields apart. *)
Lemma field_labels_disjoint f g l :
  l ∈ field_labels f → l ∈ field_labels g → f = g.
Proof.
  destruct f, g; cbn; rewrite ?elem_of_cons, ?elem_of_nil; intros Hf Hg;
    try reflexivity; exfalso;
    repeat match goal with
    | H : _ ∨ _ |- _ => destruct H
    | H : False |- _ => destruct H
    end; subst; discriminate.
Qed.

(** On an event record every block returns, the result is the text block of
    the six lines, each line is empty or starts with a label of its own
    field, and the line of a missing field is empty. *)
Lemma format_event_lines d :
  event_fields d = true →
  ∃ line : optional_field → string,
    (∀ g, field_line g (VDict d) = Ok (line g))
    ∧ format_event (VDict d) =
        Ok (event_block (event_name d) (line Date) (line Venue) (line Genre)
              (line PriceRange) (line TicketStatus) (line Url))
    ∧ (∀ g, line_of g (line g))
    ∧ (∀ f, path_lookup (VDict d) (field_path f) = None → line f = "").
Proof.
  intros H. apply event_fields_inv in H as (Hd & He & Hp & Hc).
  destruct (date_info_shaped d Hd) as (sd & Ed & Ad & Ld).
  destruct (venue_info_shaped d He) as (sv & Ev & Av & Lv).
  destruct (price_info_shaped d Hp) as (sp & Ep & Ap & Lp).
  destruct (ticket_info_shaped d Hd) as (st & Et & At & Lt).
  destruct (url_info_shaped d) as (su & Eu & Au & Lu).
  pose proof (genre_info_shaped d Hc) as Eg.
  exists (fun g => match g with
                   | Date => sd
                   | Venue => sv
                   | Genre => genre_line (genre_names (first_classification d))
                   | PriceRange => sp
                   | TicketStatus => st
                   | Url => su
                   end).
  split; [intros []; assumption|]. split; [|split].
  - unfold format_event, event_name. rewrite Ed, Ev, Ep, Et, Eu, Eg.
    unfold py_get. destruct (dict_lookup d "name"); reflexivity.
  - intros []; try assumption. apply genre_line_labelled.
  - intros [] Habs; auto.
    unfold first_classification. cbn in Habs.
    destruct (dict_lookup d "classifications"); [discriminate|reflexivity].
Qed.

(** C1. For every event record and every optional field (date, venue,
    genre, price range, ticket status, URL) that the record does not hold:
    [format_event] returns a string; that string is the header followed by
    what the six blocks give; each block gives nothing or a line that starts
    with a label of its own field; and the block of the missing field gives
    nothing, so no line is printed for it. *)
Theorem format_event_omits_absent_field
    (d : list (string * value)) (f : optional_field) :
  event_fields d = true →
  path_lookup (VDict d) (field_path f) = None →
  ∃ line : optional_field → string,
    (∀ g, field_line g (VDict d) = Ok (line g))
    ∧ format_event (VDict d) =
        Ok (event_block (event_name d) (line Date) (line Venue) (line Genre)
              (line PriceRange) (line TicketStatus) (line Url))
    ∧ (∀ g, line_of g (line g))
    ∧ line f = "".
Proof.
  intros Hshape Habs.
  destruct (format_event_lines d Hshape) as (line & Hl & Hf & Hlab & Hn).
  exists line. repeat split; try assumption. now apply Hn.
Qed.

(** ** The genre line *)

Lemma kept_component_spec c k n :
  n ∈ kept_component c k →
  component_name c k = Some n ∧ undefined_ci n = false.
Proof.
  unfold kept_component, kept.
  destruct (component_name c k) as [m|]; [|intros H; inversion H].
  destruct (String.eqb m ""); cbn [negb andb]; [intros H; inversion H|].
  destruct (undefined_ci m) eqn:Hu; cbn [negb]; [intros H; inversion H|].
  intros H. apply list_elem_of_singleton in H. subst. auto.
Qed.

(** C4. On every event record [format_event] returns the header, the date
    and venue lines, then the genre line, then the price, status and link
    lines.  The genre line is "Genre: " and the names of the segment, the
    genre and the sub-genre of the first classification, in that order,
    joined with " | "; a name is in the line only if the component holds it
    and it does not lower to "undefined"; with no name left there is no
    genre line. *)
Theorem genre_line_components (d : list (string * value)) :
  event_fields d = true →
  (∃ line : optional_field → string,
     (∀ g, field_line g (VDict d) = Ok (line g))
     ∧ line Genre = genre_line (genre_names (first_classification d))
     ∧ format_event (VDict d) =
         Ok (nl +:+ "Event: " +:+ event_name d +:+ nl
             +:+ line Date +:+ line Venue
             +:+ genre_line (genre_names (first_classification d))
             +:+ line PriceRange +:+ line TicketStatus +:+ line Url +:+ nl))
  ∧ genre_info (VDict d) = Ok (genre_line (genre_names (first_classification d)))
  ∧ genre_line [] = ""
  ∧ ∀ n, n ∈ genre_names (first_classification d) →
      undefined_ci n = false
      ∧ ∃ k, k ∈ ["segment"; "genre"; "subGenre"]
             ∧ component_name (first_classification d) k = Some n.
Proof.
  intros H.
  destruct (format_event_lines d H) as (line & Hl & Hf & _ & _).
  apply event_fields_inv in H as (_ & _ & _ & Hc).
  pose proof (genre_info_shaped d Hc) as Hg.
  assert (Hline : line Genre
                  = genre_line (genre_names (first_classification d))).
  { pose proof (Hl Genre) as HG. cbn [field_line] in HG.
    rewrite Hg in HG. now injection HG. }
  split.
  { exists line. split; [exact Hl|]. split; [exact Hline|].
    rewrite Hf, Hline. reflexivity. }
  split; [exact Hg|]. split; [reflexivity|].
  intros n Hn. unfold genre_names in Hn.
  rewrite !elem_of_app in Hn.
  destruct Hn as [Hn | [Hn | Hn]]; apply kept_component_spec in Hn as [Hc' Hu];
    (split; [assumption|]); eexists; (split; [|exact Hc']);
    rewrite !elem_of_cons; auto.
Qed.

(** ** The price line *)

Lemma price_range_line d p rest :
  dict_lookup d "priceRanges" = Some (VList (VDict p :: rest)) →
  price_info (VDict d) =
    Ok (let min_price := default VNone (dict_lookup p "min") in
        let max_price := default VNone (dict_lookup p "max") in
        let currency := py_str (default (VStr "USD") (dict_lookup p "currency")) in
        if (py_bool min_price && py_bool max_price)%bool then
          "Price Range: " +:+ py_str min_price +:+ "-" +:+ py_str max_price
            +:+ " " +:+ currency +:+ nl
        else if py_bool min_price then
          "Starting Price: " +:+ py_str min_price +:+ " " +:+ currency +:+ nl
        else "").
Proof.
  intros H. unfold price_info. py_unfold. rewrite H, py_nonempty_cons.
  destruct (dict_lookup p "min"), (dict_lookup p "max"),
    (dict_lookup p "currency"); cbn;
    repeat match goal with |- context [py_bool ?v] => destruct (py_bool v) end;
    reflexivity.
Qed.

Lemma price_line_absent d :
  dict_lookup d "priceRanges" = None → price_info (VDict d) = Ok "".
Proof.
  intros H. unfold price_info. py_unfold. rewrite H. reflexivity.
Qed.

(** The example of the specification: min 20, max 50, no currency. *)
Lemma price_line_20_50 :
  price_info
    (VDict [("priceRanges", VList [VDict [("min", VInt 20); ("max", VInt 50)]])])
  = Ok ("Price Range: 20-50 USD" +:+ nl).
Proof. reflexivity. Qed.

(** C3, at a minimum price of zero: both prices are in the record and the
    formatter prints no price line, because it tests the truth of the
    prices and zero is false. *)
Theorem price_line_zero_minimum :
  price_info
    (VDict [("priceRanges", VList [VDict [("min", VInt 0); ("max", VInt 50)]])])
  = Ok "".
Proof. reflexivity. Qed.

(** ** The venue line and the path it is read from *)

Lemma bind_ok_inv {A B} (m : result A) (f : A → result B) y :
  (m ≫= f) = Ok y → ∃ x, m = Ok x ∧ f x = Ok y.
Proof. destruct m; cbn; [eauto | discriminate]. Qed.





(** ** extract_events *)

(** C2. On a payload object without the key "_embedded", or whose
    "_embedded" object has no key "events", [extract_events] returns the
    empty list, and so does not raise. *)
Theorem extract_events_without_path (d : list (string * value)) :
  (dict_lookup d "_embedded" = None
   ∨ ∃ e, dict_lookup d "_embedded" = Some (VDict e)
          ∧ dict_lookup e "events" = None) →
  extract_events (VDict d) = Ok (VList []).
Proof.
  unfold extract_events. py_unfold. intros [H | (e & H & He)].
  - rewrite H. reflexivity.
  - rewrite H. cbn. rewrite He. reflexivity.
Qed.

(** ** The gateway and the store *)

Lemma make_request_run endpoint p m w :
  heap w !! p = Some m →
  make_ticketmaster_request endpoint p w =
    (Ok (gateway_reply (server (sent_request endpoint m))),
     World (<[p := <["apikey" := PStr TICKETMASTER_API_KEY]> m]> (heap w))
           (sent w ++ [sent_request endpoint m])).
Proof.
  intros H.
  unfold make_ticketmaster_request, mbind, tool_bind, load, store, send.
  cbn. rewrite H. cbn. rewrite lookup_insert_eq. reflexivity.
Qed.

(** C10. A call of the gateway on a parameter dictionary of the store
    returns, and afterwards that same dictionary binds "apikey" to the
    configured key and every other key as before; no other object of the
    store changes. *)
Theorem make_ticketmaster_request_sets_apikey
    (endpoint : string) (p : loc) (m : gmap string pval) (w : world) :
  heap w !! p = Some m →
  ∃ data w' m',
    make_ticketmaster_request endpoint p w = (Ok data, w')
    ∧ heap w' !! p = Some m'
    ∧ m' !! "apikey" = Some (PStr TICKETMASTER_API_KEY)
    ∧ (∀ k, k ≠ "apikey" → m' !! k = m !! k)
    ∧ (∀ q, q ≠ p → heap w' !! q = heap w !! q).
Proof.
  intros H. rewrite (make_request_run endpoint p m w H).
  eexists _, _, _. split; [reflexivity|]. cbn.
  split; [apply lookup_insert_eq|].
  split; [apply lookup_insert_eq|].
  split.
  - intros k Hk. apply lookup_insert_ne. congruence.
  - intros q Hq. apply lookup_insert_ne. congruence.
Qed.

(** ** What each tool sends *)

Ltac run_tool :=
  unfold runs_as, mbind, tool_bind, alloc, load, lift; cbn;
  rewrite ?lookup_insert_eq; cbn;
  erewrite make_request_run by (cbn; apply lookup_insert_eq);
  eexists; split; reflexivity.

Lemma artist_run artist size w :
  runs_as (search_events_by_artist artist size) w
    (sent_request "events.json" (artist_params artist size))
    (fun data => render_search data
       ("No upcoming events found for artist: " +:+ artist)
       ("Upcoming events for " +:+ artist +:+ ":")).
Proof. unfold search_events_by_artist. run_tool. Qed.

Lemma venue_run venue size w :
  runs_as (search_events_by_venue venue size) w
    (sent_request "events.json" (drop_none (venue_params venue size)))
    (fun data => render_search data
       ("No upcoming events found for venue: " +:+ venue)
       ("Upcoming events at " +:+ venue +:+ ":")).
Proof. unfold search_events_by_venue. run_tool. Qed.

Lemma location_run city state country size w :
  runs_as (search_events_by_location city state country size) w
    (sent_request "events.json"
       (drop_none (location_params city state country size)))
    (fun data => render_search data
       ("No upcoming events found in " +:+ location_text city state)
       ("Upcoming events in " +:+ location_text city state +:+ ":")).
Proof. unfold search_events_by_location. run_tool. Qed.

Lemma genre_run genre city size w :
  runs_as (search_events_by_genre genre city size) w
    (sent_request "events.json" (drop_none (genre_params genre city size)))
    (fun data => render_search data
       ("No upcoming " +:+ genre +:+ " events found" +:+ location_info city)
       ("Upcoming " +:+ genre +:+ " events" +:+ location_info city +:+ ":")).
Proof. unfold search_events_by_genre. run_tool. Qed.

Lemma details_run event_id w :
  runs_as (get_event_details event_id) w
    (sent_request ("events/" +:+ event_id +:+ ".json") ∅)
    render_details.
Proof. unfold get_event_details. run_tool. Qed.

Lemma availability_run event_id w :
  runs_as (check_ticket_availability event_id) w
    (sent_request ("events/" +:+ event_id +:+ ".json") ∅)
    render_availability.
Proof. unfold check_ticket_availability. run_tool. Qed.

(** C6. The venue tool sends one request.  When the venue starts with
    "KovZ" its parameters hold the venue under "venueId" and have no
    "keyword"; otherwise they hold it under "keyword" and have no
    "venueId".  So it is for "KovZ917M" and for "Madison Square Garden". *)
Theorem venue_lookup_sends_one_filter (venue : string) (size : Z) (w : world) :
  ∃ req,
    sent (search_events_by_venue venue size w).2 = sent w ++ [req]
    ∧ (if startswith "KovZ" venue
       then req_params req !! "venueId" = Some (PStr venue)
            ∧ req_params req !! "keyword" = None
       else req_params req !! "keyword" = Some (PStr venue)
            ∧ req_params req !! "venueId" = None)
    ∧ startswith "KovZ" "KovZ917M" = true
    ∧ startswith "KovZ" "Madison Square Garden" = false.
Proof.
  destruct (venue_run venue size w) as (w' & Hrun & Hsent).
  eexists. rewrite Hrun. split; [exact Hsent|].
  split; [|split; reflexivity].
  unfold sent_request, drop_none, venue_params. cbn [req_params].
  destruct (startswith "KovZ" venue); split.
  - rewrite lookup_insert_ne by discriminate.
    apply map_lookup_filter_Some. split; [|discriminate].
    apply lookup_insert_eq.
  - rewrite lookup_insert_ne by discriminate.
    apply map_lookup_filter_None. right. intros x Hx.
    rewrite lookup_insert_ne in Hx by discriminate.
    rewrite lookup_insert_eq in Hx. injection Hx as <-. cbn. congruence.
  - rewrite lookup_insert_ne by discriminate.
    apply map_lookup_filter_Some. split; [|discriminate].
    rewrite lookup_insert_ne by discriminate. apply lookup_insert_eq.
  - rewrite lookup_insert_ne by discriminate.
    apply map_lookup_filter_None. right. intros x Hx.
    rewrite lookup_insert_eq in Hx. injection Hx as <-. cbn. congruence.
Qed.

(** ** Gateway failures and empty results *)

Lemma render_search_error msg none_found header :
  render_search (error_dict msg) none_found header = Ok ("Error: " +:+ msg).
Proof. reflexivity. Qed.

Lemma render_details_error msg :
  render_details (error_dict msg) = Ok ("Error: " +:+ msg).
Proof. reflexivity. Qed.

Lemma render_availability_error msg :
  render_availability (error_dict msg) = Ok ("Error: " +:+ msg).
Proof. reflexivity. Qed.

Lemma runs_as_result {A} (t : tool A) w req k :
  runs_as t w req k → (t w).1 = k (gateway_reply (server req)).
Proof. intros (w' & H & _). rewrite H. reflexivity. Qed.

(** What holds of every rendering of the reply holds of every tool. *)
Lemma every_tool_by_reply w (P : result string → Prop) :
  (∀ m none_found header,
     P (render_search (gateway_reply (server (sent_request "events.json" m)))
          none_found header)) →
  (∀ event_id,
     P (render_details
          (gateway_reply
             (server (sent_request ("events/" +:+ event_id +:+ ".json") ∅))))) →
  (∀ event_id,
     P (render_availability
          (gateway_reply
             (server (sent_request ("events/" +:+ event_id +:+ ".json") ∅))))) →
  every_tool w P.
Proof.
  intros Hs Hd Ha. unfold every_tool. repeat split; intros.
  - rewrite (runs_as_result _ _ _ _ (artist_run artist size w)). apply Hs.
  - rewrite (runs_as_result _ _ _ _ (venue_run venue size w)). apply Hs.
  - rewrite (runs_as_result _ _ _ _ (location_run city state country size w)).
    apply Hs.
  - rewrite (runs_as_result _ _ _ _ (genre_run genre city size w)). apply Hs.
  - rewrite (runs_as_result _ _ _ _ (details_run event_id w)). apply Hd.
  - rewrite (runs_as_result _ _ _ _ (availability_run event_id w)). apply Ha.
Qed.

(** C5. When the service answers every request with status 429, the
    gateway's reply is the rate-limit error, and each of the six tools
    returns "Error: Rate limit exceeded. Please try again later.", a string
    that starts with "Error:" and mentions the rate limit. *)
Theorem rate_limit_is_reported :
  (∀ r, server r = HTTPStatusError 429) →
  let msg := "Error: Rate limit exceeded. Please try again later." in
  String.prefix "Error:" msg = true
  ∧ contains "Rate limit" msg = true
  ∧ (∀ r, gateway_reply (server r)
          = error_dict "Rate limit exceeded. Please try again later.")
  ∧ ∀ w, every_tool w (fun r => r = Ok msg).
Proof.
  intros H msg.
  assert (Hreply : ∀ r, gateway_reply (server r)
            = error_dict "Rate limit exceeded. Please try again later.")
    by (intros r; rewrite H; reflexivity).
  split; [reflexivity|]. split; [reflexivity|]. split; [exact Hreply|].
  intros w. apply every_tool_by_reply; intros; rewrite Hreply; reflexivity.
Qed.

(** C7. When the service answers the artist search with a payload that is
    not an error object and from which [extract_events] gets nothing, the
    tool returns "No upcoming events found for artist: " followed by the
    artist, which does not start with "Error:". *)
Theorem no_events_for_artist
    (artist : string) (size : Z) (w : world) (data events : value) :
  (∀ r, server r = Json data) →
  py_in "error" data = Ok false →
  extract_events data = Ok events →
  py_bool events = false →
  (search_events_by_artist artist size w).1
    = Ok ("No upcoming events found for artist: " +:+ artist)
  ∧ String.prefix "Error:" ("No upcoming events found for artist: " +:+ artist)
    = false.
Proof.
  intros Hsrv Herr Hev Hnone. split; [|reflexivity].
  rewrite (runs_as_result _ _ _ _ (artist_run artist size w)), Hsrv.
  cbn [gateway_reply]. unfold render_search.
  rewrite Herr. cbn. rewrite Hev. cbn. rewrite Hnone. reflexivity.
Qed.

(** ** The tools on shaped payloads *)

Lemma format_event_shaped event :
  event_shape event = true → ∃ s, format_event event = Ok s.
Proof.
  intros H. apply is_dict_of_inv in H as (d & -> & H).
  destruct (format_event_lines d H) as (line & _ & Hf & _). eauto.
Qed.

Lemma mapM_format_event_shaped evs :
  forallb event_shape evs = true → ∃ ss, mapM format_event evs = Ok ss.
Proof.
  induction evs as [|e evs IH]; cbn; [eauto|].
  intros H. apply andb_true_iff in H as [He Hevs].
  destruct (format_event_shaped e He) as (s & ->).
  destruct (IH Hevs) as (ss & ->). cbn. eauto.
Qed.

Lemma render_search_shaped data none_found header :
  search_shape data = true → ∃ s, render_search data none_found header = Ok s.
Proof.
  intros H. apply is_dict_of_inv in H as (d & -> & H).
  unfold render_search, extract_events. py_unfold.
  destruct (dict_lookup d "error") as [e|] eqn:He; [eauto|].
  cbn in H. apply field_ok_dict in H as [H | (x & H & Hx)].
  - rewrite H. cbn. eauto.
  - rewrite H. cbn. unfold field_ok in Hx.
    destruct (dict_lookup x "events") as [evs|] eqn:Hevs; cbn; [|eauto].
    destruct evs as [| | | | | evs |]; try discriminate.
    cbn in Hx. destruct evs as [|e evs]; cbn; [eauto|].
    destruct (mapM_format_event_shaped (e :: evs) Hx) as (ss & Hss).
    cbn in Hss. rewrite Hss. eauto.
Qed.

Lemma render_details_shaped data :
  detail_shape data = true → ∃ s, render_details data = Ok s.
Proof.
  intros H. apply is_dict_of_inv in H as (d & -> & H).
  unfold render_details. py_unfold.
  destruct (dict_lookup d "error") as [e|] eqn:He; [eauto|].
  cbn in H. apply (format_event_shaped (VDict d)). exact H.
Qed.

Lemma ticket_status_shaped d :
  field_ok d "dates" (is_dict_of dates_shape) = true →
  ∃ s, ticket_status (VDict d) = Ok s.
Proof.
  intros H. unfold ticket_status. py_unfold.
  shape_cases; free_lookups; eauto.
Qed.

Lemma availability_price_shaped d :
  field_ok d "priceRanges" (head_ok (is_dict_of any_dict)) = true →
  ∃ s, availability_price (VDict d) = Ok s.
Proof.
  intros H. unfold availability_price. py_unfold.
  shape_cases; free_lookups; eauto.
  all: cbn; free_lookups;
    repeat match goal with |- context [py_bool ?v] => destruct (py_bool v) end;
    eauto.
Qed.

Lemma render_availability_shaped data :
  detail_shape data = true → ∃ s, render_availability data = Ok s.
Proof.
  intros H. apply is_dict_of_inv in H as (d & -> & H).
  unfold render_availability.
  destruct (dict_lookup d "error") as [e|] eqn:He.
  - py_unfold. rewrite He. eauto.
  - unfold dict_mem in H. rewrite He in H. cbn in H.
    apply event_fields_inv in H as (Hd & _ & Hp & _).
    destruct (ticket_status_shaped d Hd) as (st & ->).
    destruct (availability_price_shaped d Hp) as (sp & ->).
    py_unfold. rewrite He.
    destruct (dict_lookup d "url"), (dict_lookup d "name"); eauto.
Qed.

Lemma error_dict_search_shape msg : search_shape (error_dict msg) = true.
Proof. reflexivity. Qed.

Lemma error_dict_detail_shape msg : detail_shape (error_dict msg) = true.
Proof. reflexivity. Qed.

Lemma search_reply_shaped m :
  shaped_server →
  search_shape (gateway_reply (server (sent_request "events.json" m))) = true.
Proof.
  intros H. specialize (H (sent_request "events.json" m)).
  destruct (server (sent_request "events.json" m)) as [body|code| |msg];
    cbn [gateway_reply].
  - apply (H body eq_refl).
  - destruct (code =? 429); [|destruct (code =? 401)];
      apply error_dict_search_shape.
  - apply error_dict_search_shape.
  - apply error_dict_search_shape.
Qed.

Lemma detail_reply_shaped event_id :
  shaped_server →
  detail_shape
    (gateway_reply
       (server (sent_request ("events/" +:+ event_id +:+ ".json") ∅))) = true.
Proof.
  intros H.
  specialize (H (sent_request ("events/" +:+ event_id +:+ ".json") ∅)).
  destruct (server (sent_request ("events/" +:+ event_id +:+ ".json") ∅))
    as [body|code| |msg]; cbn [gateway_reply].
  - apply (H body eq_refl).
  - destruct (code =? 429); [|destruct (code =? 401)];
      apply error_dict_detail_shape.
  - apply error_dict_detail_shape.
  - apply error_dict_detail_shape.
Qed.

Lemma failure_reply r :
  is_failure r = true → ∃ msg, gateway_reply r = error_dict msg.
Proof.
  destruct r as [body|code| |msg]; cbn; [discriminate| | |]; intros _.
  - destruct (code =? 429); [|destruct (code =? 401)]; eauto.
  - eauto.
  - eauto.
Qed.

(** C8, as the code has it.  When the service answers a search with a
    search payload and a look-up with an event record, or fails in any way,
    each of the six tools returns a string; and when the request fails,
    that string is "Error: " followed by the gateway's message. *)
Theorem tools_return_on_shaped_payloads :
  shaped_server →
  ∀ w,
    every_tool w (fun r => ∃ s, r = Ok s)
    ∧ ((∀ r, is_failure (server r) = true) →
       every_tool w (fun r => ∃ msg, r = Ok ("Error: " +:+ msg))).
Proof.
  intros H w. split.
  - apply every_tool_by_reply; intros.
    + apply render_search_shaped, search_reply_shaped, H.
    + apply render_details_shaped, detail_reply_shaped, H.
    + apply render_availability_shaped, detail_reply_shaped, H.
  - intros Hfail. apply every_tool_by_reply; intros.
    + destruct (failure_reply _ (Hfail (sent_request "events.json" m)))
        as (msg & ->). eauto using render_search_error.
    + destruct (failure_reply _
        (Hfail (sent_request ("events/" +:+ event_id +:+ ".json") ∅)))
        as (msg & ->). eauto using render_details_error.
    + destruct (failure_reply _
        (Hfail (sent_request ("events/" +:+ event_id +:+ ".json") ∅)))
        as (msg & ->). eauto using render_availability_error.
Qed.

(** * More of the program *)

(** ** What the tools make of the gateway's reply *)

(** X1. The gateway's other failures, through every tool: status 401, any
    status other than 429 and 401, a transport failure, and any other
    exception each give their own "Error: " message. *)
Theorem gateway_failures_are_classified (w : world) (code : Z) (msg : string) :
  ((∀ r, server r = HTTPStatusError 401) →
   every_tool w
     (fun x => x = Ok "Error: Unauthorized. Please check your API key."))
  ∧ (code ≠ 429 → code ≠ 401 → (∀ r, server r = HTTPStatusError code) →
     every_tool w
       (fun x => x = Ok ("Error: HTTP error: " +:+ str_of_int code)))
  ∧ ((∀ r, server r = RequestError) →
     every_tool w
       (fun x => x = Ok "Error: Failed to connect to Ticketmaster API."))
  ∧ ((∀ r, server r = OtherException msg) →
     every_tool w
       (fun x => x = Ok ("Error: An unexpected error occurred: " +:+ msg))).
Proof.
  split; [|split; [|split]].
  - intros H. apply every_tool_by_reply; intros; rewrite H; reflexivity.
  - intros H429 H401 H.
    assert (Hr : ∀ r, gateway_reply (server r)
                      = error_dict ("HTTP error: " +:+ str_of_int code)).
    { intros r. rewrite H. cbn [gateway_reply].
      destruct (Z.eqb_spec code 429); [contradiction|].
      destruct (Z.eqb_spec code 401); [contradiction|]. reflexivity. }
    apply every_tool_by_reply; intros; rewrite Hr; reflexivity.
  - intros H. apply every_tool_by_reply; intros; rewrite H; reflexivity.
  - intros H. apply every_tool_by_reply; intros; rewrite H; reflexivity.
Qed.

(** X2. A body that the service sends with success but that holds the key
    "error" is taken for a failure by every tool: the result is "Error: "
    and the text of that entry, whatever else the body holds. *)
Theorem error_key_in_body_is_reported
    (w : world) (d : list (string * value)) (e : value) :
  (∀ r, server r = Json (VDict d)) →
  dict_lookup d "error" = Some e →
  every_tool w (fun x => x = Ok ("Error: " +:+ py_str e)).
Proof.
  intros H He.
  apply every_tool_by_reply; intros; rewrite H; cbn [gateway_reply];
    [unfold render_search | unfold render_details | unfold render_availability];
    py_unfold; rewrite He; reflexivity.
Qed.

(** X3. The three other searches on a reply without events: each returns
    its own "no events" sentence, with the venue, the place (the state
    after a comma when it is given and not empty) or the genre and the
    city. *)
Theorem no_events_messages
    (w : world) (data events : value) (size : Z) :
  (∀ r, server r = Json data) →
  py_in "error" data = Ok false →
  extract_events data = Ok events →
  py_bool events = false →
  (∀ venue,
     (search_events_by_venue venue size w).1
     = Ok ("No upcoming events found for venue: " +:+ venue))
  ∧ (∀ city state country,
       (search_events_by_location city state country size w).1
       = Ok ("No upcoming events found in "
             +:+ (match state with
                  | Some s => if String.eqb s "" then city
                              else city +:+ "," +:+ s
                  | None => city
                  end)))
  ∧ (∀ genre city,
       (search_events_by_genre genre city size w).1
       = Ok ("No upcoming " +:+ genre +:+ " events found"
             +:+ (match city with
                  | Some c => if String.eqb c "" then "" else " in " +:+ c
                  | None => ""
                  end))).
Proof.
  intros Hsrv Herr Hev Hnone.
  assert (Hr : ∀ m none_found header,
             render_search
               (gateway_reply (server (sent_request "events.json" m)))
               none_found header = Ok none_found).
  { intros. rewrite Hsrv. cbn [gateway_reply]. unfold render_search.
    rewrite Herr. cbn. rewrite Hev. cbn. rewrite Hnone. reflexivity. }
  split; [|split]; intros.
  - rewrite (runs_as_result _ _ _ _ (venue_run venue size w)). apply Hr.
  - rewrite (runs_as_result _ _ _ _ (location_run city state country size w)),
      Hr. unfold location_text, opt_true.
    destruct state as [s|]; [destruct (String.eqb s "")|]; reflexivity.
  - rewrite (runs_as_result _ _ _ _ (genre_run genre city size w)), Hr.
    unfold location_info, opt_true.
    destruct city as [c|]; [destruct (String.eqb c "")|]; reflexivity.
Qed.

(** ** The requests the tools send *)

Lemma runs_as_sent {A} (t : tool A) w req k :
  runs_as t w req k → sent (t w).2 = sent w ++ [req].
Proof. intros (w' & H & Hs). rewrite H. exact Hs. Qed.

Lemma no_none_empty : no_none ∅.
Proof. intros k. rewrite lookup_empty. discriminate. Qed.

Lemma no_none_insert i v m : v ≠ PNone → no_none m → no_none (<[i := v]> m).
Proof.
  intros Hv Hm k. destruct (decide (i = k)) as [->|Hne].
  - rewrite lookup_insert_eq. congruence.
  - rewrite lookup_insert_ne by assumption. apply Hm.
Qed.

Lemma no_none_drop m : no_none (drop_none m).
Proof.
  intros k H. unfold drop_none in H.
  apply map_lookup_filter_Some in H as [_ H]. cbn in H. congruence.
Qed.

Lemma sent_request_keyed endpoint m :
  no_none m →
  req_timeout (sent_request endpoint m) = 30
  ∧ req_params (sent_request endpoint m) !! "apikey"
    = Some (PStr TICKETMASTER_API_KEY)
  ∧ no_none (req_params (sent_request endpoint m)).
Proof.
  intros Hm. split; [reflexivity|]. split; [apply lookup_insert_eq|].
  apply no_none_insert; [discriminate | exact Hm].
Qed.

(** X4. Every call of a tool sends exactly one request; it has a timeout of
    30 seconds, the configured key under "apikey", and no parameter that is
    [None]. *)
Theorem tools_send_one_keyed_request (w : world) :
  every_tool_sends w (fun req =>
    req_timeout req = 30
    ∧ req_params req !! "apikey" = Some (PStr TICKETMASTER_API_KEY)
    ∧ no_none (req_params req)).
Proof.
  unfold every_tool_sends, every_tool_run. repeat split; intros; eexists.
  - split; [exact (runs_as_sent _ _ _ _ (artist_run artist size w))|].
    apply sent_request_keyed. unfold artist_params.
    repeat (apply no_none_insert; [discriminate|]). apply no_none_empty.
  - split; [exact (runs_as_sent _ _ _ _ (venue_run venue size w))|].
    apply sent_request_keyed, no_none_drop.
  - split; [exact (runs_as_sent _ _ _ _
                     (location_run city state country size w))|].
    apply sent_request_keyed, no_none_drop.
  - split; [exact (runs_as_sent _ _ _ _ (genre_run genre city size w))|].
    apply sent_request_keyed, no_none_drop.
  - split; [exact (runs_as_sent _ _ _ _ (details_run event_id w))|].
    apply sent_request_keyed, no_none_empty.
  - split; [exact (runs_as_sent _ _ _ _ (availability_run event_id w))|].
    apply sent_request_keyed, no_none_empty.
Qed.

Lemma drop_none_lookup m k v :
  m !! k = Some v → v ≠ PNone → drop_none m !! k = Some v.
Proof.
  intros H Hv. apply map_lookup_filter_Some. split; [exact H | exact Hv].
Qed.

Lemma drop_none_lookup_none m k :
  m !! k = Some PNone ∨ m !! k = None → drop_none m !! k = None.
Proof.
  intros H. apply map_lookup_filter_None. destruct H as [H | H].
  - right. intros x Hx. rewrite H in Hx. injection Hx as <-. cbn. congruence.
  - left. exact H.
Qed.

(** X5. The four searches go to the one endpoint "events.json" and ask for
    [size] results sorted by ascending date; the artist goes in "keyword"
    and the genre in "classificationName". *)
Theorem searches_ask_for_sorted_page (w : world) (size : Z) :
  let asks (t : tool string) (k v : string) :=
    ∃ req, sent (t w).2 = sent w ++ [req]
           ∧ req_url req = TICKETMASTER_API_BASE +:+ "/events.json"
           ∧ req_params req !! "size" = Some (PInt size)
           ∧ req_params req !! "sort" = Some (PStr "date,asc")
           ∧ req_params req !! k = Some (PStr v) in
  (∀ artist, asks (search_events_by_artist artist size) "keyword" artist)
  ∧ (∀ venue,
       asks (search_events_by_venue venue size)
            (if startswith "KovZ" venue then "venueId" else "keyword") venue)
  ∧ (∀ city state country,
       asks (search_events_by_location city state country size) "city" city)
  ∧ (∀ genre city,
       asks (search_events_by_genre genre city size)
            "classificationName" genre).
Proof.
  cbn zeta. split; [|split; [|split]]; intros; eexists.
  - split; [exact (runs_as_sent _ _ _ _ (artist_run artist size w))|].
    split; [reflexivity|]. unfold sent_request, artist_params.
    cbn [req_params]. repeat split; by simplify_map_eq.
  - split; [exact (runs_as_sent _ _ _ _ (venue_run venue size w))|].
    split; [reflexivity|]. unfold sent_request, venue_params.
    cbn [req_params].
    repeat split; (rewrite lookup_insert_ne by (destruct (startswith "KovZ" venue); discriminate));
      apply drop_none_lookup; try discriminate;
      destruct (startswith "KovZ" venue); by simplify_map_eq.
  - split; [exact (runs_as_sent _ _ _ _
                     (location_run city state country size w))|].
    split; [reflexivity|]. unfold sent_request, location_params.
    cbn [req_params].
    repeat split; (rewrite lookup_insert_ne by discriminate);
      apply drop_none_lookup; try discriminate; by simplify_map_eq.
  - split; [exact (runs_as_sent _ _ _ _ (genre_run genre city size w))|].
    split; [reflexivity|]. unfold sent_request, genre_params.
    cbn [req_params].
    repeat split; (rewrite lookup_insert_ne by discriminate);
      apply drop_none_lookup; try discriminate; by simplify_map_eq.
Qed.

(** X6. The two look-ups by id go to "events/<id>.json" with the API key
    as their only parameter. *)
Theorem lookups_ask_by_id (w : world) (event_id : string) :
  let asks (t : tool string) :=
    ∃ req, sent (t w).2 = sent w ++ [req]
           ∧ req_url req
             = TICKETMASTER_API_BASE +:+ "/events/" +:+ event_id +:+ ".json"
           ∧ req_params req = {[ "apikey" := PStr TICKETMASTER_API_KEY ]} in
  asks (get_event_details event_id)
  ∧ asks (check_ticket_availability event_id).
Proof.
  cbn zeta. split; eexists.
  - split; [exact (runs_as_sent _ _ _ _ (details_run event_id w))|].
    split; reflexivity.
  - split; [exact (runs_as_sent _ _ _ _ (availability_run event_id w))|].
    split; reflexivity.
Qed.

(** X7. An optional filter is sent exactly when the argument is given:
    "stateCode" holds the state of the location search, and "city" the city
    of the genre search, also when that string is empty; with no argument
    the key is not in the request.  The country always goes in
    "countryCode". *)
Theorem optional_filters_sent_when_given (w : world) (size : Z) :
  (∀ city state country,
     ∃ req,
       sent (search_events_by_location city state country size w).2
       = sent w ++ [req]
       ∧ req_params req !! "stateCode" = PStr <$> state
       ∧ req_params req !! "countryCode" = Some (PStr country))
  ∧ (∀ genre city,
       ∃ req,
         sent (search_events_by_genre genre city size w).2 = sent w ++ [req]
         ∧ req_params req !! "city" = PStr <$> city).
Proof.
  split; intros; eexists.
  - split; [exact (runs_as_sent _ _ _ _
                     (location_run city state country size w))|].
    unfold sent_request, location_params. cbn [req_params]. split.
    + rewrite lookup_insert_ne by discriminate. destruct state as [s|]; cbn.
      * apply drop_none_lookup; [by simplify_map_eq | discriminate].
      * apply drop_none_lookup_none. left. by simplify_map_eq.
    + rewrite lookup_insert_ne by discriminate.
      apply drop_none_lookup; [by simplify_map_eq | discriminate].
  - split; [exact (runs_as_sent _ _ _ _ (genre_run genre city size w))|].
    unfold sent_request, genre_params. cbn [req_params].
    rewrite lookup_insert_ne by discriminate. destruct city as [c|]; cbn.
    + apply drop_none_lookup; [by simplify_map_eq | discriminate].
    + apply drop_none_lookup_none. left. by simplify_map_eq.
Qed.

(** ** The lines of the formatter *)

(** X8. The date line.  With a string under dates/start/localDate the line
    is "Date: " and that date, followed by a space and the local time when
    there is one.  Without a local date there is no date line, even when a
    local time is given. *)
Theorem date_line_text
    (d dates start : list (string * value)) :
  dict_lookup d "dates" = Some (VDict dates) →
  dict_lookup dates "start" = Some (VDict start) →
  (∀ date,
     dict_lookup start "localDate" = Some (VStr date) →
     date_info (VDict d)
     = Ok ("Date: "
           +:+ match dict_lookup start "localTime" with
               | Some t => date +:+ " " +:+ py_str t
               | None => date
               end
           +:+ nl))
  ∧ (dict_lookup start "localDate" = None → date_info (VDict d) = Ok "").
Proof.
  intros Hd Hs. split.
  - intros date Hdate. unfold date_info. py_unfold.
    rewrite Hd. cbn. rewrite Hs. cbn. rewrite Hdate. cbn.
    destruct (dict_lookup start "localTime"); reflexivity.
  - intros Hnone. unfold date_info. py_unfold.
    rewrite Hd. cbn. rewrite Hs. cbn. rewrite Hnone. reflexivity.
Qed.

(** X9. The venue line is made from the first venue only: "Venue: ", its
    name ("Unknown Venue" without one), ", ", and those of the names of its
    city, state and country that are not empty, joined with ", ".  With none
    of the three the line ends with the comma and a space. *)
Theorem venue_line_text
    (d e1 e2 venue : list (string * value)) (others : list value) :
  dict_lookup d "embedded" = Some (VDict e1) →
  dict_lookup e1 "_embedded" = Some (VDict e2) →
  dict_lookup e2 "venues" = Some (VList (VDict venue :: others)) →
  venue_shape venue = true →
  venue_info (VDict d)
  = Ok ("Venue: "
        +:+ py_str (default (VStr "Unknown Venue") (dict_lookup venue "name"))
        +:+ ", " +:+ venue_location venue +:+ nl).
Proof.
  intros H1 H2 H3 Hv.
  unfold venue_info, embedded_embedded, venue_part, venue_location,
    venue_part_name.
  py_unfold. rewrite H1. cbn. rewrite H2. cbn. rewrite H3.
  rewrite ?py_nonempty_cons.
  shape_cases; free_lookups; cbn -[String.eqb];
    repeat match goal with
    | |- context [String.eqb ?a ?b] => destruct (String.eqb a b) eqn:?
    end; reflexivity.
Qed.



Lemma append_assoc (a b c : string) : (a +:+ b) +:+ c = a +:+ (b +:+ c).
Proof.
  induction a as [|x a IH]; [reflexivity|].
  change (String x ((a +:+ b) +:+ c) = String x (a +:+ (b +:+ c))).
  now rewrite IH.
Qed.




(** X12. Whatever [format_event] returns starts with an empty line and the
    header "Event: ". *)
Theorem format_event_starts_with_header (event : value) (s : string) :
  format_event event = Ok s →
  String.prefix (nl +:+ "Event: ") s = true.
Proof.
  unfold format_event. intros H.
  repeat (apply bind_ok_inv in H as (? & _ & H)).
  unfold mret, result_ret in H. injection H as <-.
  unfold event_block. rewrite <- (append_assoc nl "Event: ").
  apply prefix_app.
Qed.

(** ** extract_events on the path *)

(** X13. With an object under "_embedded" that holds "events",
    [extract_events] returns what is there, as it is. *)
Theorem extract_events_reads_path
    (d e : list (string * value)) (events : value) :
  dict_lookup d "_embedded" = Some (VDict e) →
  dict_lookup e "events" = Some events →
  extract_events (VDict d) = Ok events.
Proof.
  intros Hd He. unfold extract_events. py_unfold.
  rewrite Hd. cbn. rewrite He. reflexivity.
Qed.

(** X14. With [null], a boolean or a number under "_embedded",
    [extract_events] raises [TypeError]: the key is there and the test for
    "events" in its value fails. *)
Theorem extract_events_raises_on_scalar
    (d : list (string * value)) (x : value) :
  dict_lookup d "_embedded" = Some x →
  is_scalar x = true →
  extract_events (VDict d) = Raise TypeError.
Proof.
  intros Hd Hx. unfold extract_events. py_unfold. rewrite Hd.
  destruct x; try discriminate; reflexivity.
Qed.

(** ** Searches that find events *)

Lemma mapM_blocks {A B} (f : A → result B) l ss :
  Forall2 (fun x s => f x = Ok s) l ss → mapM f l = Ok ss.
Proof.
  induction 1 as [|x s l ss Hx _ IH]; [reflexivity|].
  cbn. rewrite Hx. cbn. rewrite IH. reflexivity.
Qed.

Lemma mapM_raises {A B} (f : A → result B) pre bad post ex :
  Forall (fun x => ∃ s, f x = Ok s) pre →
  f bad = Raise ex →
  mapM f (pre ++ bad :: post) = Raise ex.
Proof.
  intros Hpre Hbad. induction Hpre as [|x pre (s & Hx) _ IH]; cbn.
  - rewrite Hbad. reflexivity.
  - rewrite Hx. cbn. rewrite IH. reflexivity.
Qed.

Lemma render_search_events d e ev evs none_found header :
  dict_lookup d "error" = None →
  dict_lookup d "_embedded" = Some (VDict e) →
  dict_lookup e "events" = Some (VList (ev :: evs)) →
  render_search (VDict d) none_found header
  = (blocks ← mapM format_event (ev :: evs);
     mret (header +:+ nl +:+ nl +:+ String.concat nl blocks)).
Proof.
  intros Herr Hd He. unfold render_search, extract_events. py_unfold.
  rewrite Herr, Hd. cbn -[mapM]. rewrite He. reflexivity.
Qed.

(** X15. A search whose reply holds a list of events that all format
    returns its header, an empty line, and the blocks of the events in the
    order of the list, joined with newlines. *)
Theorem searches_list_every_event
    (w : world) (d e : list (string * value)) (ev : value)
    (evs : list value) (blocks : list string) (size : Z) :
  (∀ r, server r = Json (VDict d)) →
  dict_lookup d "error" = None →
  dict_lookup d "_embedded" = Some (VDict e) →
  dict_lookup e "events" = Some (VList (ev :: evs)) →
  Forall2 (fun x s => format_event x = Ok s) (ev :: evs) blocks →
  let listing (header : string) :=
    Ok (header +:+ nl +:+ nl +:+ String.concat nl blocks) in
  (∀ artist,
     (search_events_by_artist artist size w).1
     = listing ("Upcoming events for " +:+ artist +:+ ":"))
  ∧ (∀ venue,
       (search_events_by_venue venue size w).1
       = listing ("Upcoming events at " +:+ venue +:+ ":"))
  ∧ (∀ city state country,
       (search_events_by_location city state country size w).1
       = listing ("Upcoming events in " +:+ location_text city state +:+ ":"))
  ∧ (∀ genre city,
       (search_events_by_genre genre city size w).1
       = listing ("Upcoming " +:+ genre +:+ " events" +:+ location_info city
                  +:+ ":")).
Proof.
  intros Hsrv Herr Hd He Hblocks listing.
  assert (Hr : ∀ m none_found header,
             render_search
               (gateway_reply (server (sent_request "events.json" m)))
               none_found header = listing header).
  { intros. rewrite Hsrv. cbn [gateway_reply].
    rewrite (render_search_events d e ev evs) by assumption.
    rewrite (mapM_blocks _ _ _ Hblocks). reflexivity. }
  split; [|split; [|split]]; intros.
  - rewrite (runs_as_result _ _ _ _ (artist_run artist size w)). apply Hr.
  - rewrite (runs_as_result _ _ _ _ (venue_run venue size w)). apply Hr.
  - rewrite (runs_as_result _ _ _ _ (location_run city state country size w)).
    apply Hr.
  - rewrite (runs_as_result _ _ _ _ (genre_run genre city size w)). apply Hr.
Qed.

(** X16. One event of the reply that does not format makes the whole search
    raise what that event raises, however many events before it format. *)
Theorem one_bad_event_fails_the_search
    (w : world) (d e : list (string * value)) (pre post : list value)
    (bad : value) (ex : exn) :
  (∀ r, server r = Json (VDict d)) →
  dict_lookup d "error" = None →
  dict_lookup d "_embedded" = Some (VDict e) →
  dict_lookup e "events" = Some (VList (pre ++ bad :: post)) →
  Forall (fun x => ∃ s, format_event x = Ok s) pre →
  format_event bad = Raise ex →
  every_search w (fun x => x = Raise ex).
Proof.
  intros Hsrv Herr Hd He Hpre Hbad.
  assert (Hr : ∀ m none_found header,
             render_search
               (gateway_reply (server (sent_request "events.json" m)))
               none_found header = Raise ex).
  { intros. rewrite Hsrv. cbn [gateway_reply].
    destruct (pre ++ bad :: post) as [|ev evs] eqn:Hl;
      [destruct pre; discriminate|].
    rewrite (render_search_events d e ev evs) by assumption.
    rewrite <- Hl, (mapM_raises _ _ _ _ _ Hpre Hbad). reflexivity. }
  unfold every_search. split; [|split; [|split]]; intros.
  - rewrite (runs_as_result _ _ _ _ (artist_run artist size w)). apply Hr.
  - rewrite (runs_as_result _ _ _ _ (venue_run venue size w)). apply Hr.
  - rewrite (runs_as_result _ _ _ _ (location_run city state country size w)).
    apply Hr.
  - rewrite (runs_as_result _ _ _ _ (genre_run genre city size w)). apply Hr.
Qed.

(** ** The store across calls *)

(** X17. A second call of the gateway on the same dictionary changes the
    store no further, and sends the parameters of the first call again. *)
Theorem gateway_twice_same_parameters
    (e1 e2 : string) (p : loc) (m : gmap string pval) (w : world) :
  heap w !! p = Some m →
  let w1 := (make_ticketmaster_request e1 p w).2 in
  let w2 := (make_ticketmaster_request e2 p w1).2 in
  heap w2 = heap w1
  ∧ sent w2 = sent w ++ [sent_request e1 m; sent_request e2 m].
Proof.
  intros H w1 w2. subst w1 w2.
  rewrite (make_request_run e1 p m w H). cbn [snd].
  erewrite make_request_run by (cbn; apply lookup_insert_eq).
  cbn [snd heap sent]. split.
  - rewrite insert_insert_eq. rewrite insert_insert_eq. reflexivity.
  - rewrite <- app_assoc. cbn [app]. unfold sent_request.
    rewrite insert_insert_eq. reflexivity.
Qed.

Lemma fresh_lookup_ne (h : gmap loc (gmap string pval)) q m :
  h !! q = Some m → q ≠ fresh (dom h).
Proof.
  intros Hq ->. apply (is_fresh (dom h)). apply elem_of_dom. eauto.
Qed.

(** X18. A tool builds its own parameter dictionaries: every dictionary
    that was in the store before the call is in it afterwards, unchanged. *)
Theorem tools_keep_the_store (w : world) (q : loc) (m : gmap string pval) :
  heap w !! q = Some m →
  every_tool_run w (fun out => heap out.2 !! q = Some m).
Proof.
  intros Hq.
  assert (Hq1 : ∀ x, (<[fresh (dom (heap w)) := x]> (heap w)) !! q = Some m).
  { intros x. rewrite lookup_insert_ne; [assumption|].
    apply not_eq_sym. eapply fresh_lookup_ne. exact Hq. }
  assert (Hq1' : ∀ x y, (<[fresh (dom (heap w)) := y]>
                       (<[fresh (dom (heap w)) := x]> (heap w))) !! q = Some m).
  { intros x y. rewrite insert_insert_eq. apply Hq1. }
  assert (Hq2 : ∀ x y z,
            (<[fresh (dom (<[fresh (dom (heap w)) := x]> (heap w))) := z]>
               (<[fresh (dom (<[fresh (dom (heap w)) := x]> (heap w))) := y]>
                  (<[fresh (dom (heap w)) := x]> (heap w)))) !! q = Some m).
  { intros x y z. rewrite insert_insert_eq.
    rewrite lookup_insert_ne; [apply Hq1|].
    apply not_eq_sym. eapply fresh_lookup_ne. apply Hq1. }
  unfold every_tool_run. repeat split; intros.
  - unfold search_events_by_artist, mbind, tool_bind, alloc, lift. cbn.
    erewrite make_request_run by (cbn; apply lookup_insert_eq).
    cbn. apply Hq1'.
  - unfold search_events_by_venue, mbind, tool_bind, alloc, load, lift. cbn.
    rewrite lookup_insert_eq. cbn.
    erewrite make_request_run by (cbn; apply lookup_insert_eq).
    cbn. apply Hq2.
  - unfold search_events_by_location, mbind, tool_bind, alloc, load, lift.
    cbn. rewrite lookup_insert_eq. cbn.
    erewrite make_request_run by (cbn; apply lookup_insert_eq).
    cbn. apply Hq2.
  - unfold search_events_by_genre, mbind, tool_bind, alloc, load, lift. cbn.
    rewrite lookup_insert_eq. cbn.
    erewrite make_request_run by (cbn; apply lookup_insert_eq).
    cbn. apply Hq2.
  - unfold get_event_details, mbind, tool_bind, alloc, lift. cbn.
    erewrite make_request_run by (cbn; apply lookup_insert_eq).
    cbn. apply Hq1'.
  - unfold check_ticket_availability, mbind, tool_bind, alloc, lift. cbn.
    erewrite make_request_run by (cbn; apply lookup_insert_eq).
    cbn. apply Hq1'.
Qed.

(** ** Records with nothing in them, and with more in them *)

(** X19. On a body with none of the keys the two look-ups read, the event
    tool prints the header with "Unknown Event" alone, and the availability
    tool prints its four defaults. *)
Theorem lookups_on_an_empty_record
    (w : world) (d : list (string * value)) (event_id : string) :
  (∀ r, server r = Json (VDict d)) →
  dict_lookup d "error" = None →
  Forall (fun k => dict_lookup d k = None) event_keys →
  (get_event_details event_id w).1
  = Ok (nl +:+ "Event: Unknown Event" +:+ nl +:+ nl)
  ∧ (check_ticket_availability event_id w).1
    = Ok (nl +:+ "Ticket Availability for: Unknown Event" +:+ nl
          +:+ "Status: Unknown" +:+ nl
          +:+ "Price information not available" +:+ nl
          +:+ "Ticket Link: No ticket link available" +:+ nl).
Proof.
  intros Hsrv Herr Hkeys. unfold event_keys in Hkeys.
  rewrite !Forall_cons in Hkeys.
  destruct Hkeys as (Hn & Hda & Hem & Hpr & Hu & Hc & _).
  split.
  - rewrite (runs_as_result _ _ _ _ (details_run event_id w)), Hsrv.
    cbn [gateway_reply].
    unfold render_details, format_event, date_info, venue_info, price_info,
      ticket_info, url_info, genre_info.
    py_unfold. rewrite Herr, Hn, Hda, Hem, Hpr, Hu, Hc. reflexivity.
  - rewrite (runs_as_result _ _ _ _ (availability_run event_id w)), Hsrv.
    cbn [gateway_reply].
    unfold render_availability, ticket_status, availability_price.
    py_unfold. rewrite Herr, Hn, Hda, Hpr, Hu. reflexivity.
Qed.

(** X20. [format_event] reads six keys of the record and nothing else: two
    records that hold the same under "name", "dates", "embedded",
    "priceRanges", "url" and "classifications" format alike, whatever else
    they hold and in whatever order. *)
Theorem format_event_reads_six_keys (d d' : list (string * value)) :
  Forall (fun k => dict_lookup d k = dict_lookup d' k) event_keys →
  format_event (VDict d) = format_event (VDict d').
Proof.
  intros Hkeys. unfold event_keys in Hkeys.
  rewrite !Forall_cons in Hkeys.
  destruct Hkeys as (Hn & Hda & Hem & Hpr & Hu & Hc & _).
  unfold format_event, date_info, venue_info, embedded_embedded, price_info,
    ticket_info, url_info, genre_info.
  unfold py_and, py_in, py_getitem, py_get, dict_mem.
  rewrite Hn, Hda, Hem, Hpr, Hu, Hc. reflexivity.
Qed.

(** ** The three kinds of answer of a search *)

Lemma render_search_kinds data none_found header :
  search_shape data = true →
  ∃ s, render_search data none_found header = Ok s
       ∧ (String.prefix "Error: " s = true
          ∨ s = none_found
          ∨ String.prefix header s = true).
Proof.
  intros H. apply is_dict_of_inv in H as (d & -> & H).
  destruct (dict_lookup d "error") as [e|] eqn:He.
  - eexists. split.
    + unfold render_search. py_unfold. rewrite He. reflexivity.
    + left. apply prefix_app.
  - unfold dict_mem in H. rewrite He in H. cbn in H.
    apply field_ok_dict in H as [H | (x & H & Hx)].
    + eexists. split.
      * unfold render_search, extract_events. py_unfold. rewrite He, H.
        reflexivity.
      * right. left. reflexivity.
    + unfold field_ok in Hx.
      destruct (dict_lookup x "events") as [evs|] eqn:Hevs.
      * destruct evs as [| | | | | [|ev evs] |]; try discriminate.
        -- eexists. split.
           ++ unfold render_search, extract_events. py_unfold.
              rewrite He, H. cbn. rewrite Hevs. reflexivity.
           ++ right. left. reflexivity.
        -- destruct (mapM_format_event_shaped (ev :: evs) Hx) as (ss & Hss).
           eexists. split.
           ++ rewrite (render_search_events d x ev evs) by assumption.
              rewrite Hss. reflexivity.
           ++ right. right. apply prefix_app.
      * eexists. split.
        -- unfold render_search, extract_events. py_unfold.
           rewrite He, H. cbn. rewrite Hevs. reflexivity.
        -- right. left. reflexivity.
Qed.

(** X21. On shaped payloads a search answers in one of three ways: a string
    that starts with "Error: ", its "no events" sentence, or a listing that
    starts with its header.  So it is for each of the four searches. *)
Theorem searches_answer_in_three_ways (w : world) (size : Z) :
  shaped_server →
  let answers (x : result string) (none_found header : string) :=
    ∃ s, x = Ok s
         ∧ (String.prefix "Error: " s = true
            ∨ s = none_found
            ∨ String.prefix header s = true) in
  (∀ artist,
     answers (search_events_by_artist artist size w).1
       ("No upcoming events found for artist: " +:+ artist)
       ("Upcoming events for " +:+ artist +:+ ":"))
  ∧ (∀ venue,
       answers (search_events_by_venue venue size w).1
         ("No upcoming events found for venue: " +:+ venue)
         ("Upcoming events at " +:+ venue +:+ ":"))
  ∧ (∀ city state country,
       answers (search_events_by_location city state country size w).1
         ("No upcoming events found in " +:+ location_text city state)
         ("Upcoming events in " +:+ location_text city state +:+ ":"))
  ∧ (∀ genre city,
       answers (search_events_by_genre genre city size w).1
         ("No upcoming " +:+ genre +:+ " events found" +:+ location_info city)
         ("Upcoming " +:+ genre +:+ " events" +:+ location_info city +:+ ":")).
Proof.
  intros H answers. subst answers. cbn beta.
  split; [|split; [|split]]; intros.
  - rewrite (runs_as_result _ _ _ _ (artist_run artist size w)).
    apply render_search_kinds, search_reply_shaped, H.
  - rewrite (runs_as_result _ _ _ _ (venue_run venue size w)).
    apply render_search_kinds, search_reply_shaped, H.
  - rewrite (runs_as_result _ _ _ _ (location_run city state country size w)).
    apply render_search_kinds, search_reply_shaped, H.
  - rewrite (runs_as_result _ _ _ _ (genre_run genre city size w)).
    apply render_search_kinds, search_reply_shaped, H.
Qed.

End Events.

(** * The properties at sample inputs *)

Example format_full_event :
  format_event quote_repr (VDict full_event)
  = Ok (nl +:+ "Event: Radiohead Live" +:+ nl
        +:+ "Date: 2025-06-01 19:30:00" +:+ nl
        +:+ "Venue: Madison Square Garden, New York, New York, United States Of America" +:+ nl
        +:+ "Genre: Music | Rock" +:+ nl
        +:+ "Price Range: 20-50 USD" +:+ nl
        +:+ "Ticket Status: On Sale" +:+ nl
        +:+ "Tickets: https://tm.example/e/2" +:+ nl
        +:+ nl).
Proof. vm_compute. reflexivity. Qed.

Example format_bare_event :
  format_event quote_repr (VDict bare_event)
  = Ok (nl +:+ "Event: Open Mic Night" +:+ nl
        +:+ "Tickets: https://tm.example/e/1" +:+ nl +:+ nl).
Proof. vm_compute. reflexivity. Qed.

Lemma format_event_omits_absent_field_witness :
  event_fields bare_event = true
  ∧ path_lookup (VDict bare_event) (field_path Date) = None
  ∧ ∃ line : optional_field → string,
      (∀ g, field_line quote_repr g (VDict bare_event) = Ok (line g))
      ∧ format_event quote_repr (VDict bare_event) =
          Ok (event_block (event_name quote_repr bare_event)
                (line Date) (line Venue) (line Genre)
                (line PriceRange) (line TicketStatus) (line Url))
      ∧ (∀ g, line_of g (line g))
      ∧ line Date = "".
Proof.
  split; [reflexivity|]. split; [reflexivity|].
  apply (format_event_omits_absent_field quote_repr bare_event Date);
    reflexivity.
Defined.

Lemma extract_events_without_path_witness :
  (dict_lookup [("page", VInt 0)] "_embedded" = None
   ∨ ∃ e, dict_lookup [("page", VInt 0)] "_embedded" = Some (VDict e)
          ∧ dict_lookup e "events" = None)
  ∧ extract_events (VDict [("page", VInt 0)]) = Ok (VList []).
Proof.
  split; [left; reflexivity|].
  apply (extract_events_without_path [("page", VInt 0)]).
  left. reflexivity.
Defined.

Lemma genre_line_components_witness :
  event_fields full_event = true
  ∧ genre_names (first_classification full_event) = ["Music"; "Rock"]
  ∧ ∃ line : optional_field → string,
      (∀ g, field_line quote_repr g (VDict full_event) = Ok (line g))
      ∧ format_event quote_repr (VDict full_event) =
          Ok (nl +:+ "Event: Radiohead Live" +:+ nl
              +:+ line Date +:+ line Venue
              +:+ ("Genre: Music | Rock" +:+ nl)
              +:+ line PriceRange +:+ line TicketStatus +:+ line Url +:+ nl).
Proof.
  split; [reflexivity|]. split; [reflexivity|].
  destruct (genre_line_components quote_repr full_event eq_refl)
    as ((line & Hl & _ & Hf) & _).
  exists line. split; [exact Hl | exact Hf].
Defined.

Lemma rate_limit_is_reported_witness :
  (∀ r, rate_limited_server r = HTTPStatusError 429)
  ∧ (search_events_by_artist "k3y" quote_repr rate_limited_server
       "Radiohead" 5 empty_world).1
    = Ok "Error: Rate limit exceeded. Please try again later.".
Proof.
  split; [intros r; reflexivity|].
  pose proof (rate_limit_is_reported "k3y" quote_repr rate_limited_server
                (fun r => eq_refl)) as (_ & _ & _ & Hw).
  destruct (Hw empty_world) as (Ha & _). exact (Ha "Radiohead" 5).
Defined.

Lemma no_events_for_artist_witness :
  (∀ r, (fun _ : request => Json empty_page) r = Json empty_page)
  ∧ (search_events_by_artist "k3y" quote_repr (fun _ => Json empty_page)
       "Radiohead" 5 empty_world).1
    = Ok "No upcoming events found for artist: Radiohead".
Proof.
  split; [reflexivity|].
  apply (no_events_for_artist "k3y" quote_repr (fun _ => Json empty_page)
           "Radiohead" 5 empty_world empty_page (VList []));
    reflexivity.
Defined.

Lemma sample_server_shaped : shaped_server sample_server.
Proof.
  intros r body H. unfold sample_server in H.
  destruct (String.eqb (req_url r) (TICKETMASTER_API_BASE +:+ "/events.json"));
    injection H as <-; reflexivity.
Defined.

Lemma tools_return_on_shaped_payloads_witness :
  shaped_server sample_server
  ∧ (∃ s, (search_events_by_venue "k3y" quote_repr sample_server
             "Madison Square Garden" 5 empty_world).1 = Ok s)
  ∧ (∃ s, (check_ticket_availability "k3y" quote_repr sample_server
             "Z7r9jZ1Ad" empty_world).1 = Ok s).
Proof.
  split; [exact sample_server_shaped|].
  pose proof (tools_return_on_shaped_payloads "k3y" quote_repr sample_server
                sample_server_shaped empty_world)
    as ((_ & Hv & _ & _ & _ & Ha) & _).
  split; [apply Hv | apply Ha].
Defined.

(** C8, as stated, fails: on a payload with a number under "dates" the
    look-up tool raises [TypeError] instead of returning a string. *)
Lemma tool_raises_on_misshaped_payload :
  (get_event_details "k3y" quote_repr misshaped_server "Z7r9jZ1Ad"
     empty_world).1 = Raise TypeError
  ∧ ¬ ∃ s, (get_event_details "k3y" quote_repr misshaped_server "Z7r9jZ1Ad"
              empty_world).1 = Ok s.
Proof.
  assert (H : (get_event_details "k3y" quote_repr misshaped_server "Z7r9jZ1Ad"
                 empty_world).1 = Raise TypeError) by (vm_compute; reflexivity).
  split; [exact H|]. intros (s & Hs). rewrite H in Hs. discriminate.
Qed.


Lemma make_ticketmaster_request_sets_apikey_witness :
  heap one_dict_world !! 1%positive
    = Some (<["keyword" := PStr "Radiohead"]> (<["size" := PInt 5]> ∅))
  ∧ ∃ data w' m',
      make_ticketmaster_request "k3y" rate_limited_server "events.json"
        1%positive one_dict_world = (Ok data, w')
      ∧ heap w' !! 1%positive = Some m'
      ∧ m' !! "apikey" = Some (PStr "k3y")
      ∧ (∀ k, k ≠ "apikey" →
           m' !! k = (<["keyword" := PStr "Radiohead"]>
                        (<["size" := PInt 5]> ∅) : gmap string pval) !! k)
      ∧ (∀ q, q ≠ 1%positive → heap w' !! q = heap one_dict_world !! q).
Proof.
  split; [apply lookup_singleton_eq|].
  apply (make_ticketmaster_request_sets_apikey "k3y" rate_limited_server
           "events.json" 1%positive).
  apply lookup_singleton_eq.
Defined.

Lemma venue_lookup_sends_one_filter_witness :
  (∃ req,
     sent (search_events_by_venue "k3y" quote_repr rate_limited_server
             "KovZ917M" 5 empty_world).2 = [req]
     ∧ req_params req !! "venueId" = Some (PStr "KovZ917M")
     ∧ req_params req !! "keyword" = None)
  ∧ (∃ req,
       sent (search_events_by_venue "k3y" quote_repr rate_limited_server
               "Madison Square Garden" 5 empty_world).2 = [req]
       ∧ req_params req !! "keyword" = Some (PStr "Madison Square Garden")
       ∧ req_params req !! "venueId" = None).
Proof.
  split.
  - destruct (venue_lookup_sends_one_filter "k3y" quote_repr
                rate_limited_server "KovZ917M" 5 empty_world)
      as (req & Hs & Hp & _).
    exists req. split; [exact Hs | exact Hp].
  - destruct (venue_lookup_sends_one_filter "k3y" quote_repr
                rate_limited_server "Madison Square Garden" 5 empty_world)
      as (req & Hs & Hp & _).
    exists req. split; [exact Hs | exact Hp].
Defined.

(** * More of the program at sample inputs *)

Lemma gateway_failures_are_classified_witness :
  (∀ r, unauthorized_server r = HTTPStatusError 401)
  ∧ (get_event_details "k3y" quote_repr unauthorized_server "Z7r9jZ1Ad"
       empty_world).1
    = Ok "Error: Unauthorized. Please check your API key.".
Proof.
  split; [intros r; reflexivity|].
  pose proof (gateway_failures_are_classified "k3y" quote_repr
                unauthorized_server empty_world 401 "") as (H & _).
  destruct (H (fun r => eq_refl)) as (_ & _ & _ & _ & Hd & _).
  exact (Hd "Z7r9jZ1Ad").
Defined.

Lemma error_key_in_body_is_reported_witness :
  (∀ r, (fun _ : request => Json (VDict error_page)) r = Json (VDict error_page))
  ∧ dict_lookup error_page "error" = Some (VStr "quota")
  ∧ (search_events_by_artist "k3y" quote_repr
       (fun _ => Json (VDict error_page)) "Radiohead" 5 empty_world).1
    = Ok "Error: quota".
Proof.
  split; [reflexivity|]. split; [reflexivity|].
  destruct (error_key_in_body_is_reported "k3y" quote_repr
              (fun _ => Json (VDict error_page)) empty_world error_page
              (VStr "quota") (fun r => eq_refl) eq_refl) as (Ha & _).
  exact (Ha "Radiohead" 5).
Defined.

Lemma no_events_messages_witness :
  (∀ r, (fun _ : request => Json empty_page) r = Json empty_page)
  ∧ (search_events_by_location "k3y" quote_repr (fun _ => Json empty_page)
       "Austin" (Some "TX") "US" 5 empty_world).1
    = Ok "No upcoming events found in Austin,TX".
Proof.
  split; [reflexivity|].
  destruct (no_events_messages "k3y" quote_repr (fun _ => Json empty_page)
              empty_world empty_page (VList []) 5
              (fun r => eq_refl) eq_refl eq_refl eq_refl) as (_ & Hl & _).
  exact (Hl "Austin" (Some "TX") "US").
Defined.

Lemma date_line_text_witness :
  dict_lookup full_event "dates" = Some (VDict full_dates)
  ∧ dict_lookup full_dates "start" = Some (VDict full_start)
  ∧ dict_lookup full_start "localDate" = Some (VStr "2025-06-01")
  ∧ date_info quote_repr (VDict full_event)
    = Ok ("Date: 2025-06-01 19:30:00" +:+ nl).
Proof.
  split; [reflexivity|]. split; [reflexivity|]. split; [reflexivity|].
  exact (proj1 (date_line_text quote_repr full_event full_dates full_start
                  eq_refl eq_refl) "2025-06-01" eq_refl).
Defined.

Lemma venue_line_text_witness :
  venue_shape full_venue = true
  ∧ venue_info quote_repr (VDict full_event)
    = Ok ("Venue: Madison Square Garden, New York, New York, United States Of America"
          +:+ nl).
Proof.
  split; [reflexivity|].
  exact (venue_line_text quote_repr full_event
           [("_embedded", VDict [("venues", VList [VDict full_venue])])]
           [("venues", VList [VDict full_venue])] full_venue []
           eq_refl eq_refl eq_refl eq_refl).
Defined.

Lemma format_event_starts_with_header_witness :
  format_event quote_repr (VDict bare_event) = Ok bare_block
  ∧ String.prefix (nl +:+ "Event: ") bare_block = true.
Proof.
  split; [reflexivity|].
  exact (format_event_starts_with_header quote_repr (VDict bare_event)
           bare_block eq_refl).
Defined.

Lemma extract_events_reads_path_witness :
  dict_lookup (bare_page [VDict bare_event]) "_embedded"
  = Some (VDict (bare_embedded [VDict bare_event]))
  ∧ extract_events (VDict (bare_page [VDict bare_event]))
    = Ok (VList [VDict bare_event]).
Proof.
  split; [reflexivity|].
  exact (extract_events_reads_path (bare_page [VDict bare_event])
           (bare_embedded [VDict bare_event]) (VList [VDict bare_event])
           eq_refl eq_refl).
Defined.

Lemma extract_events_raises_on_scalar_witness :
  is_scalar VNone = true
  ∧ extract_events (VDict [("_embedded", VNone)]) = Raise TypeError.
Proof.
  split; [reflexivity|].
  exact (extract_events_raises_on_scalar [("_embedded", VNone)] VNone
           eq_refl eq_refl).
Defined.

Lemma searches_list_every_event_witness :
  Forall2 (fun x s => format_event quote_repr x = Ok s)
    [VDict bare_event] [bare_block]
  ∧ (search_events_by_artist "k3y" quote_repr
       (fun _ => Json (VDict (bare_page [VDict bare_event])))
       "Radiohead" 5 empty_world).1
    = Ok ("Upcoming events for Radiohead:" +:+ nl +:+ nl +:+ bare_block).
Proof.
  assert (H : Forall2 (fun x s => format_event quote_repr x = Ok s)
                [VDict bare_event] [bare_block])
    by (repeat constructor).
  split; [exact H|].
  exact (proj1 (searches_list_every_event "k3y" quote_repr
                  (fun _ => Json (VDict (bare_page [VDict bare_event])))
                  empty_world (bare_page [VDict bare_event])
                  (bare_embedded [VDict bare_event]) (VDict bare_event) []
                  [bare_block] 5 (fun r => eq_refl) eq_refl eq_refl eq_refl H)
           "Radiohead").
Defined.

Lemma one_bad_event_fails_the_search_witness :
  format_event quote_repr (VStr "oops") = Raise AttributeError
  ∧ (search_events_by_artist "k3y" quote_repr
       (fun _ => Json (VDict (bare_page [VDict bare_event; VStr "oops"])))
       "Radiohead" 5 empty_world).1
    = Raise AttributeError.
Proof.
  split; [reflexivity|].
  assert (H : Forall (fun x => ∃ s, format_event quote_repr x = Ok s)
                [VDict bare_event])
    by (repeat constructor; exists bare_block; reflexivity).
  exact (proj1 (one_bad_event_fails_the_search "k3y" quote_repr
                  (fun _ => Json (VDict (bare_page [VDict bare_event;
                                                     VStr "oops"])))
                  empty_world (bare_page [VDict bare_event; VStr "oops"])
                  (bare_embedded [VDict bare_event; VStr "oops"])
                  [VDict bare_event] [] (VStr "oops") AttributeError
                  (fun r => eq_refl) eq_refl eq_refl eq_refl H eq_refl)
           "Radiohead" 5).
Defined.

Lemma gateway_twice_same_parameters_witness :
  heap one_dict_world !! 1%positive
    = Some (<["keyword" := PStr "Radiohead"]> (<["size" := PInt 5]> ∅))
  ∧ heap (make_ticketmaster_request "k3y" rate_limited_server "events.json"
            1%positive
            (make_ticketmaster_request "k3y" rate_limited_server
               "events.json" 1%positive one_dict_world).2).2
    = heap (make_ticketmaster_request "k3y" rate_limited_server
              "events.json" 1%positive one_dict_world).2.
Proof.
  split; [apply lookup_singleton_eq|].
  exact (proj1 (gateway_twice_same_parameters "k3y" rate_limited_server
                  "events.json" "events.json" 1%positive _ one_dict_world
                  (lookup_singleton_eq _ _))).
Defined.

Lemma tools_keep_the_store_witness :
  heap one_dict_world !! 1%positive
    = Some (<["keyword" := PStr "Radiohead"]> (<["size" := PInt 5]> ∅))
  ∧ heap (search_events_by_venue "k3y" quote_repr rate_limited_server
            "KovZ917M" 5 one_dict_world).2 !! 1%positive
    = Some (<["keyword" := PStr "Radiohead"]> (<["size" := PInt 5]> ∅)).
Proof.
  split; [apply lookup_singleton_eq|].
  destruct (tools_keep_the_store "k3y" quote_repr rate_limited_server
              one_dict_world 1%positive _ (lookup_singleton_eq _ _))
    as (_ & Hv & _).
  exact (Hv "KovZ917M" 5).
Defined.

Lemma lookups_on_an_empty_record_witness :
  Forall (fun k => dict_lookup [("id", VStr "Z7r9jZ1Ad")] k = None) event_keys
  ∧ (get_event_details "k3y" quote_repr
       (fun _ => Json (VDict [("id", VStr "Z7r9jZ1Ad")])) "Z7r9jZ1Ad"
       empty_world).1
    = Ok (nl +:+ "Event: Unknown Event" +:+ nl +:+ nl).
Proof.
  assert (H : Forall (fun k => dict_lookup [("id", VStr "Z7r9jZ1Ad")] k = None)
                event_keys) by (repeat constructor).
  split; [exact H|].
  exact (proj1 (lookups_on_an_empty_record "k3y" quote_repr
                  (fun _ => Json (VDict [("id", VStr "Z7r9jZ1Ad")]))
                  empty_world [("id", VStr "Z7r9jZ1Ad")] "Z7r9jZ1Ad"
                  (fun r => eq_refl) eq_refl H)).
Defined.

Lemma format_event_reads_six_keys_witness :
  Forall (fun k => dict_lookup bare_event k = dict_lookup bare_event_more k)
    event_keys
  ∧ format_event quote_repr (VDict bare_event)
    = format_event quote_repr (VDict bare_event_more).
Proof.
  assert (H : Forall (fun k => dict_lookup bare_event k
                               = dict_lookup bare_event_more k) event_keys)
    by (repeat constructor).
  split; [exact H|].
  exact (format_event_reads_six_keys quote_repr bare_event bare_event_more H).
Defined.

Lemma searches_answer_in_three_ways_witness :
  shaped_server sample_server
  ∧ ∃ s, (search_events_by_artist "k3y" quote_repr sample_server
            "Radiohead" 5 empty_world).1 = Ok s
         ∧ (String.prefix "Error: " s = true
            ∨ s = "No upcoming events found for artist: Radiohead"
            ∨ String.prefix "Upcoming events for Radiohead:" s = true).
Proof.
  split; [exact sample_server_shaped|].
  exact (proj1 (searches_answer_in_three_ways "k3y" quote_repr sample_server
                  empty_world 5 sample_server_shaped) "Radiohead").
Defined.
